(** * zpl_file.c: the ZFS POSIX layer's file operations

    A shallow embedding of [module/zfs/zpl_file.c]: the I/O vector adapter
    ([zpl_read_common], [zpl_write_common], [zpl_read], [zpl_write]), the
    attribute flag translator ([zpl_get_ioctl_flags], the two flag ioctls)
    and the page-cache synchroniser ([zpl_mmap], [zpl_readpage],
    [zpl_readpages], [zpl_putpage], [zpl_writepage], [zpl_writepages]).

    The storage engine ([zfs_*]) and the Linux primitives the file calls are
    interfaces: every statement below holds for all their implementations. *)

From stdpp Require Import base option list gmap.
From Stdlib Require Import ZArith Lia.
From Stdlib Require Import Btauto.

Local Open Scope Z_scope.

(** ** C integers

    Values of C integer types are [Z]; the wrap-around of each conversion
    and operation is written out.  The kernel targets LP64: [int] and
    [unsigned int] are 32 bits wide, [long], [size_t], [ssize_t], [loff_t]
    and [uint64_t] 64 bits. *)
Module CInt.

Definition wrap_u (w x : Z) : Z := x mod 2 ^ w.

Definition wrap_s (w x : Z) : Z := (x + 2 ^ (w - 1)) mod 2 ^ w - 2 ^ (w - 1).

Definition INT_MIN : Z := - 2 ^ 31.
Definition INT_MAX : Z := 2 ^ 31 - 1.
Definition LLONG_MIN : Z := - 2 ^ 63.
Definition LLONG_MAX : Z := 2 ^ 63 - 1.

(** Conversion to [int] / [unsigned int] / 64-bit signed. *)
Definition to_int (x : Z) : Z := wrap_s 32 x.
Definition to_uint (x : Z) : Z := wrap_u 32 x.
Definition to_s64 (x : Z) : Z := wrap_s 64 x.

(** [-e] on an [int]: the idiom [error = -zfs_xxx(...)]. *)
Definition neg_int (x : Z) : Z := to_int (- to_int x).

(** [if (e)] on an integer. *)
Definition nonzero (x : Z) : bool := negb (x =? 0).

End CInt.
Export CInt.

(** ** Error numbers (asm-generic/errno-base.h, errno.h) *)
Module Errno.
Definition ENOMEM : Z := 12.
Definition EACCES : Z := 13.
Definition ENOTTY : Z := 25.
Definition EOPNOTSUPP : Z := 95.
End Errno.
Export Errno.

(** ** Linux inode flags (linux/fs.h)

    The externally visible flag space of [FS_IOC_GETFLAGS] and
    [FS_IOC_SETFLAGS]. *)
Module LinuxFs.
Definition FS_SYNC_FL : Z := 0x00000008.
Definition FS_IMMUTABLE_FL : Z := 0x00000010.
Definition FS_APPEND_FL : Z := 0x00000020.
Definition FS_NODUMP_FL : Z := 0x00000040.
Definition FS_NOATIME_FL : Z := 0x00000080.
Definition FS_DIRSYNC_FL : Z := 0x00010000.
Definition FS_FL_USER_VISIBLE : Z := 0x0003DFFF.
Definition FS_FL_USER_MODIFIABLE : Z := 0x000380FF.

(** The six bits [zpl_ioctl_setflags] accepts (lines 460-461). *)
Definition ZPL_SETFLAGS_SUPPORTED : Z :=
  Z.lor FS_IMMUTABLE_FL (Z.lor FS_APPEND_FL (Z.lor FS_NODUMP_FL
    (Z.lor FS_DIRSYNC_FL (Z.lor FS_SYNC_FL FS_NOATIME_FL)))).
End LinuxFs.
Export LinuxFs.

(** [MAXOFFSET_T] of the SPL's headers: the largest [loff_t], that is, no
    limit. *)
Definition MAXOFFSET_T : Z := LLONG_MAX.

(** ** Constants of sys/zfs_znode.h and sys/zpl.h

    The headers are not part of the translated file: the [zp_flags] bits and
    the two ioctl command codes are parameters of the development. *)
Class ZfsConsts := {
  ZFS_IMMUTABLE : Z;
  ZFS_APPENDONLY : Z;
  ZFS_NODUMP : Z;
  ZFS_DIRSYNC : Z;
  ZFS_SYNC : Z;
  ZFS_NOATIME : Z;
  ZFS_IOC_GETFLAGS : Z;
  ZFS_IOC_SETFLAGS : Z;
}.

(** What the headers guarantee of the six [zp_flags] bits: each is one bit
    of a [uint64_t]. *)
Record ZfsConstsOk (C : ZfsConsts) : Prop := {
  zc_imm : exists k, 0 <= k < 64 /\ ZFS_IMMUTABLE = 2 ^ k;
  zc_app : exists k, 0 <= k < 64 /\ ZFS_APPENDONLY = 2 ^ k;
  zc_dump : exists k, 0 <= k < 64 /\ ZFS_NODUMP = 2 ^ k;
  zc_dsync : exists k, 0 <= k < 64 /\ ZFS_DIRSYNC = 2 ^ k;
  zc_sync : exists k, 0 <= k < 64 /\ ZFS_SYNC = 2 ^ k;
  zc_atime : exists k, 0 <= k < 64 /\ ZFS_NOATIME = 2 ^ k;
}.

(** ** The attribute flag translator *)
Section Translator.
Context {C : ZfsConsts}.

(** [zpl_get_ioctl_flags], lines 400-424. *)
Definition zpl_get_ioctl_flags (zfs_flags : Z) : Z :=
  let ioctl_flags := 0 in
  let ioctl_flags :=
    if nonzero (Z.land zfs_flags ZFS_IMMUTABLE)
    then Z.lor ioctl_flags FS_IMMUTABLE_FL else ioctl_flags in
  let ioctl_flags :=
    if nonzero (Z.land zfs_flags ZFS_APPENDONLY)
    then Z.lor ioctl_flags FS_APPEND_FL else ioctl_flags in
  let ioctl_flags :=
    if nonzero (Z.land zfs_flags ZFS_NODUMP)
    then Z.lor ioctl_flags FS_NODUMP_FL else ioctl_flags in
  let ioctl_flags :=
    if nonzero (Z.land zfs_flags ZFS_DIRSYNC)
    then Z.lor ioctl_flags FS_DIRSYNC_FL else ioctl_flags in
  let ioctl_flags :=
    if nonzero (Z.land zfs_flags ZFS_SYNC)
    then Z.lor ioctl_flags FS_SYNC_FL else ioctl_flags in
  let ioctl_flags :=
    if nonzero (Z.land zfs_flags ZFS_NOATIME)
    then Z.lor ioctl_flags FS_NOATIME_FL else ioctl_flags in
  Z.land ioctl_flags FS_FL_USER_VISIBLE.

(** The two tests of [zpl_ioctl_setflags] on the requested word, lines 457
    and 460: [~] is taken on an [int] constant and converted to
    [unsigned int] for the [&]. *)
Definition setflags_not_modifiable (flags : Z) : bool :=
  nonzero (Z.land flags (to_uint (Z.lnot FS_FL_USER_MODIFIABLE))).

Definition setflags_not_supported (flags : Z) : bool :=
  nonzero (Z.land flags (to_uint (Z.lnot ZPL_SETFLAGS_SUPPORTED))).

(** The six recognised [zp_flags] bits. *)
Definition ZFS_RECOGNIZED : Z :=
  Z.lor ZFS_IMMUTABLE (Z.lor ZFS_APPENDONLY (Z.lor ZFS_NODUMP
    (Z.lor ZFS_DIRSYNC (Z.lor ZFS_SYNC ZFS_NOATIME)))).

(** The way back, following the specification's pairing of the six external
    bits with the six internal ones (the source has no such function: it is
    the inverse the round trip is measured against). *)
Definition spec_to_internal (ioctl_flags : Z) : Z :=
  let has (bit : Z) : bool := nonzero (Z.land ioctl_flags bit) in
  Z.lor (if has FS_IMMUTABLE_FL then ZFS_IMMUTABLE else 0)
  (Z.lor (if has FS_APPEND_FL then ZFS_APPENDONLY else 0)
  (Z.lor (if has FS_NODUMP_FL then ZFS_NODUMP else 0)
  (Z.lor (if has FS_DIRSYNC_FL then ZFS_DIRSYNC else 0)
  (Z.lor (if has FS_SYNC_FL then ZFS_SYNC else 0)
         (if has FS_NOATIME_FL then ZFS_NOATIME else 0))))).

End Translator.

(** ** Kernel objects

    Objects the file reaches through pointers ([struct page], [znode_t])
    live in a store keyed by address; objects it only reads are passed by
    value. *)

(** [struct iovec] and the SPL's [uio_t].  [uio_iov] points at [uio_iovcnt]
    vectors: the list holds the vectors it points at.  [uio_fmode] and
    [uio_extflg] are never assigned by this file and are left out. *)
Record iovec := { iov_base : N; iov_len : Z }.

Inductive uio_seg_t := UIO_USERSPACE | UIO_SYSSPACE | UIO_USERISPACE.

Record uio_t := {
  uio_iov : list iovec;
  uio_iovcnt : Z;
  uio_loffset : Z;
  uio_segflg : uio_seg_t;
  uio_limit : Z;
  uio_resid : Z;
}.

(** The fields of [struct file] the file reads: [f_host] is
    [f_mapping->host], [f_inode] is [f_path.dentry->d_inode]. *)
Record file := {
  f_mode : Z;
  f_flags : Z;
  f_host : N;
  f_inode : N;
}.

Record vm_area_struct := {
  vm_start : Z;
  vm_end : Z;
  vm_pgoff : Z;
  vm_flags : Z;
}.

(** [struct page]: the lock, error and uptodate bits of [page->flags], the
    reference count, [page->mapping] and [page->mapping->host]. *)
Record page := {
  PG_locked : bool;
  PG_error : bool;
  PG_uptodate : bool;
  pg_count : Z;
  pg_mapping : N;
  pg_host : N;
}.

Definition set_PG_locked (b : bool) (pg : page) : page :=
  {| PG_locked := b; PG_error := PG_error pg; PG_uptodate := PG_uptodate pg;
     pg_count := pg_count pg; pg_mapping := pg_mapping pg;
     pg_host := pg_host pg |}.

Definition set_PG_error (b : bool) (pg : page) : page :=
  {| PG_locked := PG_locked pg; PG_error := b; PG_uptodate := PG_uptodate pg;
     pg_count := pg_count pg; pg_mapping := pg_mapping pg;
     pg_host := pg_host pg |}.

Definition set_PG_uptodate (b : bool) (pg : page) : page :=
  {| PG_locked := PG_locked pg; PG_error := PG_error pg; PG_uptodate := b;
     pg_count := pg_count pg; pg_mapping := pg_mapping pg;
     pg_host := pg_host pg |}.

(** Dropping one reference. *)
Definition put_page (pg : page) : page :=
  {| PG_locked := PG_locked pg; PG_error := PG_error pg;
     PG_uptodate := PG_uptodate pg; pg_count := pg_count pg - 1;
     pg_mapping := pg_mapping pg; pg_host := pg_host pg |}.

(** The two fields of [znode_t] the file touches. *)
Record znode_t := {
  z_is_mapped : Z;
  z_lock : bool;
}.

(** The page primitives of linux/page-flags.h, linux/pagemap.h and
    linux/list.h used on a page. *)
Inductive page_op :=
| OpSetPageError | OpClearPageError
| OpSetPageUptodate | OpClearPageUptodate
| OpFlushDcachePage | OpUnlockPage
| OpPageCacheRelease | OpListDel.

(** What the file does to the outside, in program order. *)
Inductive event :=
| EvCrhold (cr : N)
| EvCrfree (cr : N)
| EvZfsOpen (ip : N) (mode flags : Z)
| EvZfsClose (ip : N) (flags : Z)
| EvZfsReaddir (ip dirent filldir : N) (pos : Z)
| EvZfsFsync (ip : N) (datasync : Z)
| EvZfsRead (ip : N) (uio : uio_t) (flags : Z)
| EvZfsWrite (ip : N) (uio : uio_t) (flags : Z)
| EvZfsMap (ip : N) (off addr len flags : Z)
| EvZfsGetpage (ip : N) (pl : list (option N)) (nr : Z)
| EvZfsPutpage (pp wbc data : N)
| EvZfsGetflags (ip : N)
| EvZfsSetattr
| EvGenericFileOpen (ip : N)
| EvGenericFileMmap (ip : N)
| EvKmalloc (size : Z)
| EvKfree
| EvCopyToUser (arg : N) (word size : Z)
| EvCopyFromUser (arg : N) (size : Z)
| EvPage (op : page_op) (pp : N)
| EvMutexEnter (ip : N)
| EvMutexExit (ip : N)
| EvStoreIsMapped (ip : N) (v : Z).

Global Instance page_op_eq_dec : EqDecision page_op.
Proof. solve_decision. Defined.

(** The number of times [op] was applied to page [pp] in a trace. *)
Definition is_page_ev (op : page_op) (pp : N) (e : event) : bool :=
  match e with
  | EvPage op' pp' => bool_decide (op' = op) && bool_decide (pp' = pp)
  | _ => false
  end.

Definition count_page_ev (op : page_op) (pp : N) (tr : list event) : nat :=
  length (List.filter (is_page_ev op pp) tr).

(** ** The storage engine and the host

    [zfs_vnops.h]: every call returns a Solaris status, [0] or a positive
    errno, and may change the engine's state [S].  [zfs_read] and
    [zfs_write] update the [uio_t] they are given, [zfs_readdir] the file
    position, [zfs_getflags] fills in the flag word.  [zfs_setattr] is
    called without arguments (line 464). *)
Class Engine (S : Type) := {
  zfs_open : N -> Z -> Z -> N -> S -> Z * S;
  zfs_close : N -> Z -> N -> S -> Z * S;
  zfs_readdir : N -> N -> N -> Z -> N -> S -> (Z * Z) * S;
  zfs_fsync : N -> Z -> N -> S -> Z * S;
  zfs_read : N -> uio_t -> Z -> N -> S -> (Z * uio_t) * S;
  zfs_write : N -> uio_t -> Z -> N -> S -> (Z * uio_t) * S;
  zfs_map : N -> Z -> Z -> Z -> Z -> S -> Z * S;
  zfs_getpage : N -> list (option N) -> Z -> S -> Z * S;
  zfs_putpage : N -> N -> N -> S -> Z * S;
  zfs_getflags : N -> S -> (Z * Z) * S;
  zfs_setattr : S -> Z * S;
}.

(** The Linux side: whether the build drops assertions, the current
    credential, the generic VFS helpers, the
    allocator ([true]: the allocation succeeded), the user-copy primitives
    (they return the number of bytes left uncopied; [copy_from_user] also
    yields the word it read), the owner-or-capability test, and the dirty
    pages [write_cache_pages] finds for a mapping. *)
Class Host (S : Type) := {
  NDEBUG : bool;
  CRED : S -> N;
  generic_file_open : N -> file -> S -> Z * S;
  generic_file_mmap : file -> vm_area_struct -> S -> Z * S;
  kmalloc : Z -> S -> bool * S;
  copy_to_user : N -> Z -> Z -> S -> Z * S;
  copy_from_user : N -> Z -> S -> (Z * Z) * S;
  is_owner_or_cap : N -> S -> bool;
  dirty_pages : N -> N -> S -> list N;
}.

(** ** The state and the monad *)

(** The private state of the engine and of the host is [w_ext]; the page
    bits and the two znode fields are kept apart from it, so that a change
    to them is a change made by this file. *)
Record world (S : Type) := World {
  w_ext : S;
  w_pages : gmap N page;
  w_znodes : gmap N znode_t;
  w_trace : list event;
}.
Arguments World {S}.
Arguments w_ext {S}.
Arguments w_pages {S}.
Arguments w_znodes {S}.
Arguments w_trace {S}.

(** Ways a call does not return. *)
Inductive fault := BadPointer | AssertFailed | HeapOverflow | Deadlock.

Inductive outcome (S A : Type) :=
| Done (a : A) (w : world S)
| Fault (f : fault).
Arguments Done {S A}.
Arguments Fault {S A}.

Definition M (S A : Type) : Type := world S -> outcome S A.

(** The monad operations, with stdpp's notations [x ← m; k] and [m ;; k]. *)
Global Instance M_ret {S} : MRet (M S) := fun A a w => Done a w.

Global Instance M_bind {S} : MBind (M S) := fun A B k m w =>
  match m w with
  | Done a w' => k a w'
  | Fault f => Fault f
  end.

Section Primitives.
Context {S : Type}.

Definition emit (e : event) : M S unit :=
  fun w =>
    Done tt (World (w_ext w) (w_pages w) (w_znodes w) (w_trace w ++ [e])).

(** A call into the engine or the host: it runs on the external state. *)
Definition call {A} (f : S -> A * S) : M S A :=
  fun w => let '(a, s) := f (w_ext w) in
           Done a (World s (w_pages w) (w_znodes w) (w_trace w)).

Definition query {A} (f : S -> A) : M S A :=
  fun w => Done (f (w_ext w)) w.

Definition fail {A} (f : fault) : M S A := fun _ => Fault f.

(** Reading a field of the page at [pp]. *)
Definition page_get {A} (f : page -> A) (pp : N) : M S A :=
  fun w => match w_pages w !! pp with
           | Some pg => Done (f pg) w
           | None => Fault BadPointer
           end.

(** A primitive that rewrites the page at [pp]. *)
Definition page_do (op : page_op) (f : page -> page) (pp : N) : M S unit :=
  fun w => match w_pages w !! pp with
           | Some pg =>
               Done tt (World (w_ext w) (<[pp := f pg]> (w_pages w))
                              (w_znodes w) (w_trace w ++ [EvPage op pp]))
           | None => Fault BadPointer
           end.

Definition PageLocked (pp : N) : M S bool := page_get PG_locked pp.

Definition SetPageError : N -> M S unit :=
  page_do OpSetPageError (set_PG_error true).

Definition ClearPageError : N -> M S unit :=
  page_do OpClearPageError (set_PG_error false).

Definition SetPageUptodate : N -> M S unit :=
  page_do OpSetPageUptodate (set_PG_uptodate true).

Definition ClearPageUptodate : N -> M S unit :=
  page_do OpClearPageUptodate (set_PG_uptodate false).

Definition flush_dcache_page : N -> M S unit :=
  page_do OpFlushDcachePage (fun pg => pg).

Definition unlock_page : N -> M S unit :=
  page_do OpUnlockPage (set_PG_locked false).

Definition page_cache_release : N -> M S unit :=
  page_do OpPageCacheRelease put_page.

(** [list_del(&p->lru)]: the node leaves the list it is on. *)
Definition list_del (p : N) (pages : list N) : M S (list N) :=
  page_do OpListDel (fun pg => pg) p ;;
  mret (filter (fun q => q <> p) pages).

(** [mutex_enter(&zp->z_lock)], [mutex_exit] and the store to
    [zp->z_is_mapped], on the znode of inode [ip].  Taking a mutex that is
    held does not return. *)
Definition mutex_enter (ip : N) : M S unit :=
  fun w => match w_znodes w !! ip with
           | Some zp =>
               if z_lock zp then Fault Deadlock
               else
                 Done tt
                   (World (w_ext w) (w_pages w)
                      (<[ip := {| z_is_mapped := z_is_mapped zp;
                                  z_lock := true |}]> (w_znodes w))
                      (w_trace w ++ [EvMutexEnter ip]))
           | None => Fault BadPointer
           end.

Definition mutex_exit (ip : N) : M S unit :=
  fun w => match w_znodes w !! ip with
           | Some zp =>
               Done tt
                 (World (w_ext w) (w_pages w)
                    (<[ip := {| z_is_mapped := z_is_mapped zp;
                                z_lock := false |}]> (w_znodes w))
                    (w_trace w ++ [EvMutexExit ip]))
           | None => Fault BadPointer
           end.

Definition store_z_is_mapped (ip : N) (v : Z) : M S unit :=
  fun w => match w_znodes w !! ip with
           | Some zp =>
               Done tt
                 (World (w_ext w) (w_pages w)
                    (<[ip := {| z_is_mapped := v; z_lock := z_lock zp |}]>
                       (w_znodes w))
                    (w_trace w ++ [EvStoreIsMapped ip v]))
           | None => Fault BadPointer
           end.

End Primitives.

(** ** The functions of zpl_file.c *)
Section Zpl.
Context {S : Type} {Eng : Engine S} {Hst : Host S} {C : ZfsConsts}.

(** The SPL's [ASSERT(c)] and [ASSERT3S]: a panic when the condition fails,
    nothing at all in a build with [NDEBUG]. *)
Definition ASSERT (c : bool) : M S unit :=
  if NDEBUG || c then mret tt else fail AssertFailed.

(** Lines 32-47. *)
Definition zpl_open (ip : N) (filp : file) : M S Z :=
  cr ← query CRED;
  emit (EvCrhold cr) ;;
  emit (EvZfsOpen ip (f_mode filp) (f_flags filp)) ;;
  r ← call (zfs_open ip (f_mode filp) (f_flags filp) cr);
  let error := neg_int r in
  emit (EvCrfree cr) ;;
  ASSERT (error <=? 0) ;;
  if nonzero error then mret error
  else
    emit (EvGenericFileOpen ip) ;;
    r ← call (generic_file_open ip filp);
    mret (to_int r).

(** Lines 49-61. *)
Definition zpl_release (ip : N) (filp : file) : M S Z :=
  cr ← query CRED;
  emit (EvCrhold cr) ;;
  emit (EvZfsClose ip (f_flags filp)) ;;
  r ← call (zfs_close ip (f_flags filp) cr);
  let error := neg_int r in
  emit (EvCrfree cr) ;;
  ASSERT (error <=? 0) ;;
  mret error.

(** Lines 63-77.  [f_pos] is handed to the engine by reference: the new
    position is returned next to the status. *)
Definition zpl_readdir (filp : file) (dirent filldir : N) (f_pos : Z)
    : M S (Z * Z) :=
  cr ← query CRED;
  emit (EvCrhold cr) ;;
  emit (EvZfsReaddir (f_inode filp) dirent filldir f_pos) ;;
  '(r, f_pos') ← call (zfs_readdir (f_inode filp) dirent filldir f_pos cr);
  let error := neg_int r in
  emit (EvCrfree cr) ;;
  ASSERT (error <=? 0) ;;
  mret (error, f_pos').

(** Lines 90-109 (both variants take the inode from the dentry). *)
Definition zpl_fsync (filp : file) (datasync : Z) : M S Z :=
  cr ← query CRED;
  emit (EvCrhold cr) ;;
  emit (EvZfsFsync (f_inode filp) datasync) ;;
  r ← call (zfs_fsync (f_inode filp) datasync cr);
  let error := neg_int r in
  emit (EvCrfree cr) ;;
  ASSERT (error <=? 0) ;;
  mret error.

(** The [uio_t] built at lines 119-127 and 162-170: [len] is a [size_t],
    [uio_resid] an [ssize_t]. *)
Definition mk_uio (buf : N) (len pos : Z) (segment : uio_seg_t) : uio_t :=
  let iov := {| iov_base := buf; iov_len := len |} in
  {| uio_iov := [iov];
     uio_resid := to_s64 len;
     uio_iovcnt := 1;
     uio_loffset := pos;
     uio_limit := MAXOFFSET_T;
     uio_segflg := segment |}.

(** Lines 111-134.  [len - uio.uio_resid] is computed in [size_t] and
    returned as an [ssize_t]. *)
Definition zpl_read_common (ip buf : N) (len pos : Z) (segment : uio_seg_t)
    (flags : Z) (cr : N) : M S Z :=
  let uio := mk_uio buf len pos segment in
  emit (EvZfsRead ip uio flags) ;;
  '(r, uio) ← call (zfs_read ip uio flags cr);
  let error := neg_int r in
  if error <? 0 then mret error
  else mret (to_s64 (len - uio_resid uio)).

(** Lines 136-152.  [*ppos] is passed in and its final value returned.
    [filp->f_flags] is an [unsigned int] and the [flags] parameter of
    [zpl_read_common] (line 112) an [int]: the call converts it. *)
Definition zpl_read (filp : file) (buf : N) (len ppos : Z) : M S (Z * Z) :=
  cr ← query CRED;
  emit (EvCrhold cr) ;;
  read ← zpl_read_common (f_host filp) buf len ppos UIO_USERSPACE
           (to_int (f_flags filp)) cr;
  emit (EvCrfree cr) ;;
  if read <? 0 then mret (read, ppos)
  else mret (read, to_s64 (ppos + read)).

(** Lines 154-177. *)
Definition zpl_write_common (ip buf : N) (len pos : Z) (segment : uio_seg_t)
    (flags : Z) (cr : N) : M S Z :=
  let uio := mk_uio buf len pos segment in
  emit (EvZfsWrite ip uio flags) ;;
  '(r, uio) ← call (zfs_write ip uio flags cr);
  let error := neg_int r in
  if error <? 0 then mret error
  else mret (to_s64 (len - uio_resid uio)).

(** Lines 179-195.  [filp->f_flags] is converted to the [int flags] of
    [zpl_write_common] (line 155) as in [zpl_read]. *)
Definition zpl_write (filp : file) (buf : N) (len ppos : Z) : M S (Z * Z) :=
  cr ← query CRED;
  emit (EvCrhold cr) ;;
  wrote ← zpl_write_common (f_host filp) buf len ppos UIO_USERSPACE
            (to_int (f_flags filp)) cr;
  emit (EvCrfree cr) ;;
  if wrote <? 0 then mret (wrote, ppos)
  else mret (wrote, to_s64 (ppos + wrote)).

(** Lines 240-261.  [ITOZ(ip)] is the znode stored for [ip]. *)
Definition zpl_mmap (filp : file) (vma : vm_area_struct) : M S Z :=
  let ip := f_host filp in
  let len := wrap_u 64 (vm_end vma - vm_start vma) in
  emit (EvZfsMap ip (vm_pgoff vma) (vm_start vma) len (vm_flags vma)) ;;
  r ← call (zfs_map ip (vm_pgoff vma) (vm_start vma) len (vm_flags vma));
  let error := neg_int r in
  if nonzero error then mret error
  else
    emit (EvGenericFileMmap ip) ;;
    r ← call (generic_file_mmap filp vma);
    let error := to_int r in
    if nonzero error then mret error
    else
      mutex_enter ip ;;
      store_z_is_mapped ip 1 ;;
      mutex_exit ip ;;
      mret error.

(** The loop of lines 274-278 on the array [pl]: a store past the end of
    the allocation has no defined result. *)
Fixpoint fill_vector (ts : list N) (page_idx : nat) (pl : list (option N))
    : option (list (option N)) :=
  match ts with
  | [] => Some pl
  | t :: ts' =>
      if decide (page_idx < length pl)%nat
      then fill_vector ts' (page_idx + 1)%nat (<[page_idx := Some t]> pl)
      else None
  end.

(** Lines 263-281: [inl e] is [ERR_PTR(e)].  The list is walked from its
    tail; a slot of [pl] that is never written holds no page. *)
Definition pages_vector_from_list (pages : list N) (nr_pages : nat)
    : M S (Z + list (option N)) :=
  emit (EvKmalloc (8 * Z.of_nat nr_pages)) ;;
  ok ← call (kmalloc (8 * Z.of_nat nr_pages));
  if negb ok then mret (inl (- ENOMEM))
  else
    match fill_vector (rev pages) 0 (replicate nr_pages None) with
    | Some pl => mret (inr pl)
    | None => fail HeapOverflow
    end.

(** The loop of lines 302-310, over the pages from the tail of the list. *)
Fixpoint readpages_loop (ps : list N) (pages : list N) : M S (list N) :=
  match ps with
  | [] => mret pages
  | p :: ps' =>
      pages ← list_del p pages;
      flush_dcache_page p ;;
      SetPageUptodate p ;;
      unlock_page p ;;
      page_cache_release p ;;
      readpages_loop ps' pages
  end.

(** Lines 283-315.  [ip] is [mapping->host] ([file] is not used); the
    caller's list is returned as the call leaves it. *)
Definition zpl_readpages (ip : N) (pages : list N) (nr_pages : nat)
    : M S (Z * list N) :=
  v ← pages_vector_from_list pages nr_pages;
  match v with
  | inl e => mret (to_int e, pages)
  | inr pl =>
      emit (EvZfsGetpage ip pl (Z.of_nat nr_pages)) ;;
      r ← call (zfs_getpage ip pl (Z.of_nat nr_pages));
      let error := neg_int r in
      pages ← (if nonzero error then mret pages
               else readpages_loop (rev pages) pages);
      emit EvKfree ;;
      mret (error, pages)
  end.

(** Lines 326-350 ([filp] is not used). *)
Definition zpl_readpage (pp : N) : M S Z :=
  locked ← PageLocked pp;
  ASSERT locked ;;
  ip ← page_get pg_host pp;
  let pl := [Some pp] in
  emit (EvZfsGetpage ip pl 1) ;;
  r ← call (zfs_getpage ip pl 1);
  let error := neg_int r in
  (if nonzero error then
     SetPageError pp ;;
     ClearPageUptodate pp
   else
     ClearPageError pp ;;
     SetPageUptodate pp ;;
     flush_dcache_page pp) ;;
  unlock_page pp ;;
  mret error.

(** Lines 352-370. *)
Definition zpl_putpage (pp wbc data : N) : M S Z :=
  emit (EvZfsPutpage pp wbc data) ;;
  r ← call (zfs_putpage pp wbc data);
  let error := neg_int r in
  (if nonzero error then
     SetPageError pp ;;
     ClearPageUptodate pp
   else
     ClearPageError pp ;;
     SetPageUptodate pp ;;
     flush_dcache_page pp) ;;
  unlock_page pp ;;
  mret error.

(** Modelled from the spec: Linux's [write_cache_pages]
    (mm/page-writeback.c), which line 375 calls and which is no part of this
    file.  As the specification words it, the host produces a finite
    sequence of dirty pages for the writeback context and invokes the
    single-page flush on each, stopping at the first error.  What else the
    host does to a page on the way (locking it, skipping it) is not
    described and not modelled. *)
Fixpoint write_cache_pages_walk (ps : list N) (wbc : N)
    (writepage : N -> N -> N -> M S Z) (data : N) : M S Z :=
  match ps with
  | [] => mret 0
  | p :: ps' =>
      error ← writepage p wbc data;
      if nonzero error then mret error
      else write_cache_pages_walk ps' wbc writepage data
  end.

Definition write_cache_pages (mapping wbc : N)
    (writepage : N -> N -> N -> M S Z) (data : N) : M S Z :=
  ps ← query (dirty_pages mapping wbc);
  write_cache_pages_walk ps wbc writepage data.

(** Lines 372-376. *)
Definition zpl_writepages (mapping wbc : N) : M S Z :=
  write_cache_pages mapping wbc zpl_putpage mapping.

(** Lines 384-388. *)
Definition zpl_writepage (pp wbc : N) : M S Z :=
  mapping ← page_get pg_mapping pp;
  zpl_putpage pp wbc mapping.

(** Lines 426-443.  [copy_to_user]'s [unsigned long] is stored in an
    [int]. *)
Definition zpl_ioctl_getflags (filp : file) (arg : N) : M S Z :=
  let ip := f_inode filp in
  emit (EvZfsGetflags ip) ;;
  '(r, zfs_flags) ← call (zfs_getflags ip);
  let error := neg_int r in
  if nonzero error then mret error
  else
    let ioctl_flags := zpl_get_ioctl_flags (wrap_u 64 zfs_flags) in
    emit (EvCopyToUser arg ioctl_flags 4) ;;
    n ← call (copy_to_user arg ioctl_flags 4);
    let error := to_int n in
    mret error.

(** Lines 446-467.  The source names the inode [inode] in
    [is_owner_or_cap]; the function's inode is [ip]. *)
Definition zpl_ioctl_setflags (filp : file) (arg : N) : M S Z :=
  let ip := f_inode filp in
  emit (EvCopyFromUser arg 4) ;;
  '(n, flags) ← call (copy_from_user arg 4);
  let flags := to_uint flags in
  let error := to_int n in
  if nonzero error then mret error
  else
    owner ← query (is_owner_or_cap ip);
    if setflags_not_modifiable flags || negb owner then mret (- EACCES)
    else if setflags_not_supported flags then mret (- EOPNOTSUPP)
    else
      emit EvZfsSetattr ;;
      r ← call zfs_setattr;
      let error := neg_int r in
      mret error.

(** Lines 469-480. *)
Definition zpl_ioctl (filp : file) (cmd : Z) (arg : N) : M S Z :=
  if cmd =? ZFS_IOC_GETFLAGS then zpl_ioctl_getflags filp arg
  else if cmd =? ZFS_IOC_SETFLAGS then zpl_ioctl_setflags filp arg
  else mret (- ENOTTY).

(** The entry points of [zpl_address_space_operations] and
    [zpl_file_operations] (lines 482-507), with their arguments. *)
Inductive zpl_op :=
| OpOpen (ip : N) (filp : file)
| OpRelease (ip : N) (filp : file)
| OpReaddir (filp : file) (dirent filldir : N) (f_pos : Z)
| OpFsync (filp : file) (datasync : Z)
| OpRead (filp : file) (buf : N) (len ppos : Z)
| OpWrite (filp : file) (buf : N) (len ppos : Z)
| OpMmap (filp : file) (vma : vm_area_struct)
| OpReadpages (ip : N) (pages : list N) (nr_pages : nat)
| OpReadpage (pp : N)
| OpWritepage (pp wbc : N)
| OpWritepages (mapping wbc : N)
| OpIoctl (filp : file) (cmd : Z) (arg : N).

(** Running an entry point, keeping only its status. *)
Definition run_op (op : zpl_op) : M S Z :=
  match op with
  | OpOpen ip filp => zpl_open ip filp
  | OpRelease ip filp => zpl_release ip filp
  | OpReaddir filp dirent filldir f_pos =>
      x ← zpl_readdir filp dirent filldir f_pos; mret x.1
  | OpFsync filp datasync => zpl_fsync filp datasync
  | OpRead filp buf len ppos => x ← zpl_read filp buf len ppos; mret x.1
  | OpWrite filp buf len ppos => x ← zpl_write filp buf len ppos; mret x.1
  | OpMmap filp vma => zpl_mmap filp vma
  | OpReadpages ip pages nr_pages =>
      x ← zpl_readpages ip pages nr_pages; mret x.1
  | OpReadpage pp => zpl_readpage pp
  | OpWritepage pp wbc => zpl_writepage pp wbc
  | OpWritepages mapping wbc => zpl_writepages mapping wbc
  | OpIoctl filp cmd arg => zpl_ioctl filp cmd arg
  end.

End Zpl.

(** ** The single-page contract

    What a populate or flush call on page [pp] (found as [pg] in the world
    [w]) must have done when it returns: [st] is the engine's answer,
    [engine_ev] the engine call, [res] the outcome of the call.  The
    engine succeeded when the code's [error], [neg_int st.1], is zero, which
    is when the [int] it returned is zero. *)
Definition single_page_contract {S} (w : world S) (pp : N) (pg : page)
    (engine_ev : event) (st : Z * S) (res : outcome S Z) : Prop :=
  exists (w' : world S) (pg' : page) (tr : list event),
    res = Done (neg_int st.1) w' /\
    w_ext w' = st.2 /\
    w_znodes w' = w_znodes w /\
    w_pages w' = <[pp := pg']> (w_pages w) /\
    w_trace w' = w_trace w ++ engine_ev :: tr /\
    count_page_ev OpUnlockPage pp tr = 1%nat /\
    last tr = Some (EvPage OpUnlockPage pp) /\
    PG_locked pg' = false /\
    pg_count pg' = pg_count pg /\
    (neg_int st.1 = 0 ->
       tr = [EvPage OpClearPageError pp; EvPage OpSetPageUptodate pp;
             EvPage OpFlushDcachePage pp; EvPage OpUnlockPage pp] /\
       PG_error pg' = false /\ PG_uptodate pg' = true) /\
    (neg_int st.1 <> 0 ->
       tr = [EvPage OpSetPageError pp; EvPage OpClearPageUptodate pp;
             EvPage OpUnlockPage pp] /\
       PG_error pg' = true /\ PG_uptodate pg' = false).

(** [zp->z_is_mapped] reads as true for the znode of inode [ip]. *)
Definition is_mapped {S} (w : world S) (ip : N) : Prop :=
  exists zp, w_znodes w !! ip = Some zp /\ z_is_mapped zp <> 0.

(** A computation that, when it returns, has cleared no mapped flag. *)
Definition keeps_mapped {S A} (m : M S A) : Prop :=
  forall w a w',
    m w = Done a w' -> forall ip, is_mapped w ip -> is_mapped w' ip.

(** ** The transfer contract

    What [zpl_read_common] and [zpl_write_common] must return for a request
    of [len] bytes: [ev] is the one engine call, [ans] the engine's answer
    (its status, the [uio_t] as it left it, its new state), [res] the
    outcome of the call. *)
Definition transfer_contract {S} (w : world S) (len : Z) (ev : event)
    (ans : (Z * uio_t) * S) (res : outcome S Z) : Prop :=
  let status := ans.1.1 in
  let resid := uio_resid ans.1.2 in
  exists n : Z,
    res = Done n (World ans.2 (w_pages w) (w_znodes w) (w_trace w ++ [ev])) /\
    (0 < status <= INT_MAX -> n = - status) /\
    (status = 0 -> n = to_s64 (len - resid)) /\
    (status = 0 -> 0 <= resid <= len -> len <= LLONG_MAX ->
       n = len - resid /\ 0 <= n <= len) /\
    (status = 0 -> 0 < resid <= len -> len <= LLONG_MAX -> 0 <= n < len).


(** ** A small engine and host

    One concrete implementation of the two interfaces, on which the
    statements below are exercised: a file of [s_size] bytes whose engine
    calls fail with [s_errno] when it is not zero. *)
Module Sample.

Record sim := {
  s_size : Z;
  s_errno : Z;
  s_zflags : Z;
  s_alloc : bool;
  s_owner : bool;
  s_word : Z;
  s_left : Z;
  s_mmap : Z;
  s_dirty : list N;
}.

(** A read moves what is left of the file after [uio_loffset], at most
    [uio_resid] bytes. *)
Definition sim_read (uio : uio_t) (s : sim) : (Z * uio_t) * sim :=
  if nonzero (s_errno s) then ((s_errno s, uio), s)
  else
    let n := Z.max 0 (Z.min (uio_resid uio) (s_size s - uio_loffset uio)) in
    ((0, {| uio_iov := uio_iov uio;
            uio_iovcnt := uio_iovcnt uio;
            uio_loffset := uio_loffset uio + n;
            uio_segflg := uio_segflg uio;
            uio_limit := uio_limit uio;
            uio_resid := uio_resid uio - n |}), s).

(** A write moves all of [uio_resid] and grows the file. *)
Definition sim_write (uio : uio_t) (s : sim) : (Z * uio_t) * sim :=
  if nonzero (s_errno s) then ((s_errno s, uio), s)
  else
    let n := Z.max 0 (uio_resid uio) in
    ((0, {| uio_iov := uio_iov uio;
            uio_iovcnt := uio_iovcnt uio;
            uio_loffset := uio_loffset uio + n;
            uio_segflg := uio_segflg uio;
            uio_limit := uio_limit uio;
            uio_resid := uio_resid uio - n |}),
     {| s_size := Z.max (s_size s) (uio_loffset uio + n);
        s_errno := s_errno s; s_zflags := s_zflags s; s_alloc := s_alloc s;
        s_owner := s_owner s; s_word := s_word s; s_left := s_left s;
        s_mmap := s_mmap s; s_dirty := s_dirty s |}).

Global Instance sim_engine : Engine sim := {|
  zfs_open _ _ _ _ s := (s_errno s, s);
  zfs_close _ _ _ s := (s_errno s, s);
  zfs_readdir _ _ _ pos _ s := ((s_errno s, pos), s);
  zfs_fsync _ _ _ s := (s_errno s, s);
  zfs_read _ uio _ _ s := sim_read uio s;
  zfs_write _ uio _ _ s := sim_write uio s;
  zfs_map _ _ _ _ _ s := (s_errno s, s);
  zfs_getpage _ _ _ s := (s_errno s, s);
  zfs_putpage _ _ _ s := (s_errno s, s);
  zfs_getflags _ s := ((s_errno s, s_zflags s), s);
  zfs_setattr s := (s_errno s, s);
|}.

Global Instance sim_host : Host sim := {|
  NDEBUG := false;
  CRED _ := 1%N;
  generic_file_open _ _ s := (0, s);
  generic_file_mmap _ _ s := (s_mmap s, s);
  kmalloc _ s := (s_alloc s, s);
  copy_to_user _ _ _ s := (s_left s, s);
  copy_from_user _ _ s := ((s_left s, s_word s), s);
  is_owner_or_cap _ s := s_owner s;
  dirty_pages _ _ s := s_dirty s;
|}.

(** Sample header values: the [zp_flags] bits on distinct positions above
    bit 32, and the two command codes of [FS_IOC_GETFLAGS] and
    [FS_IOC_SETFLAGS] on LP64. *)
Global Instance sim_consts : ZfsConsts := {|
  ZFS_IMMUTABLE := 0x0000001000000000;
  ZFS_APPENDONLY := 0x0000004000000000;
  ZFS_NODUMP := 0x0000008000000000;
  ZFS_DIRSYNC := 0x0001000000000000;
  ZFS_SYNC := 0x0002000000000000;
  ZFS_NOATIME := 0x0004000000000000;
  ZFS_IOC_GETFLAGS := 0x80086601;
  ZFS_IOC_SETFLAGS := 0x40086602;
|}.

(** A healthy 5000-byte file owned by the caller. *)
Definition sim0 : sim := {|
  s_size := 5000; s_errno := 0; s_zflags := 0; s_alloc := true;
  s_owner := true; s_word := 0; s_left := 0; s_mmap := 0; s_dirty := [];
|}.

Definition with_errno (e : Z) (s : sim) : sim := {|
  s_size := s_size s; s_errno := e; s_zflags := s_zflags s;
  s_alloc := s_alloc s; s_owner := s_owner s; s_word := s_word s;
  s_left := s_left s; s_mmap := s_mmap s; s_dirty := s_dirty s |}.

Definition with_request (owner : bool) (word : Z) (s : sim) : sim := {|
  s_size := s_size s; s_errno := s_errno s; s_zflags := s_zflags s;
  s_alloc := s_alloc s; s_owner := owner; s_word := word;
  s_left := s_left s; s_mmap := s_mmap s; s_dirty := s_dirty s |}.

Definition with_left (n : Z) (s : sim) : sim := {|
  s_size := s_size s; s_errno := s_errno s; s_zflags := s_zflags s;
  s_alloc := s_alloc s; s_owner := s_owner s; s_word := s_word s;
  s_left := n; s_mmap := s_mmap s; s_dirty := s_dirty s |}.

(** A locked page that is not yet uptodate, as [.readpage] receives it. *)
Definition fresh_page : page := {|
  PG_locked := true; PG_error := false; PG_uptodate := false;
  pg_count := 1; pg_mapping := 70%N; pg_host := 7%N |}.

(** Inode 7 with its znode, not mapped, and pages 100, 101 and 102. *)
Definition world0 (s : sim) : world sim := {|
  w_ext := s;
  w_pages := <[100%N := fresh_page]> (<[101%N := fresh_page]>
               (<[102%N := fresh_page]> ∅));
  w_znodes := <[7%N := {| z_is_mapped := 0; z_lock := false |}]> ∅;
  w_trace := [];
|}.

Definition file0 : file := {|
  f_mode := 1; f_flags := 0; f_host := 7%N; f_inode := 7%N |}.

Definition vma0 : vm_area_struct := {|
  vm_start := 0x7f0000000000; vm_end := 0x7f0000002000;
  vm_pgoff := 0; vm_flags := 0xfb |}.

End Sample.

(** ** Measures for the further properties *)

(** The events that take and drop a reference on a credential. *)
Definition is_crhold (e : event) : bool :=
  match e with EvCrhold _ => true | _ => false end.

Definition is_crfree (e : event) : bool :=
  match e with EvCrfree _ => true | _ => false end.

(** The events that are a page primitive. *)
Definition is_any_page_ev (e : event) : bool :=
  match e with EvPage _ _ => true | _ => false end.

Definition count_ev (f : event -> bool) (tr : list event) : nat :=
  length (List.filter f tr).

(** By how much one event moves the balance of [hold] events over [free]
    events. *)
Definition ev_delta (hold free : event -> bool) (e : event) : Z :=
  (if hold e then 1 else 0) - (if free e then 1 else 0).

(** The balance of [hold] events over [free] events in a trace. *)
Definition net_of (hold free : event -> bool) (tr : list event) : Z :=
  Z.of_nat (count_ev hold tr) - Z.of_nat (count_ev free tr).

(** A computation that, when it returns, has added a trace of balance [d]. *)
Definition respects_net {S A} (hold free : event -> bool) (d : Z)
    (m : M S A) : Prop :=
  forall w a w', m w = Done a w' ->
    exists tr, w_trace w' = w_trace w ++ tr /\ net_of hold free tr = d.

(** A computation whose initial and final worlds, when it returns, are
    related by [R]. *)
Definition respects {S A} (R : world S -> world S -> Prop) (m : M S A) : Prop :=
  forall w a w', m w = Done a w' -> R w w'.

Definition same_znodes {S} (w w' : world S) : Prop :=
  w_znodes w' = w_znodes w.

(** Every znode is still there, with its mutex as it was. *)
Definition same_locks {S} (w w' : world S) : Prop :=
  forall ip zp, w_znodes w !! ip = Some zp ->
    exists zp', w_znodes w' !! ip = Some zp' /\ z_lock zp' = z_lock zp.

(** What the loop of [zpl_readpages] (lines 302-310) does to one page: the
    primitives in order, and the page it leaves. *)
Definition readpages_page_events (p : N) : list event :=
  [EvPage OpListDel p; EvPage OpFlushDcachePage p; EvPage OpSetPageUptodate p;
   EvPage OpUnlockPage p; EvPage OpPageCacheRelease p].

Definition readpages_released (pg : page) : page :=
  put_page (set_PG_locked false (set_PG_uptodate true pg)).

(** The entry points that work on the page cache: the four of
    [zpl_address_space_operations]. *)
Definition is_page_cache_op (op : zpl_op) : bool :=
  match op with
  | OpReadpages _ _ _ | OpReadpage _ | OpWritepage _ _ | OpWritepages _ _ => true
  | _ => false
  end.

Definition is_mmap_op (op : zpl_op) : bool :=
  match op with OpMmap _ _ => true | _ => false end.

(** Further states of the sample host. *)
Definition sim_with_alloc (b : bool) (s : Sample.sim) : Sample.sim := {|
  Sample.s_size := Sample.s_size s; Sample.s_errno := Sample.s_errno s;
  Sample.s_zflags := Sample.s_zflags s; Sample.s_alloc := b;
  Sample.s_owner := Sample.s_owner s; Sample.s_word := Sample.s_word s;
  Sample.s_left := Sample.s_left s; Sample.s_mmap := Sample.s_mmap s;
  Sample.s_dirty := Sample.s_dirty s |}.

(** What [zpl_release], [zpl_fsync] and [zpl_readdir] make of the engine's
    answer [st] to the call [ev]: [res] is the outcome, [mk] builds the
    returned value from the negated status. *)
Definition status_contract {S A} {H : Host S} (w : world S) (ev : event)
    (st : Z * S) (mk : Z -> A) (res : outcome S A) : Prop :=
  let cr := CRED (w_ext w) in
  let w' := World st.2 (w_pages w) (w_znodes w)
              (w_trace w ++ [EvCrhold cr; ev; EvCrfree cr]) in
  (0 <= st.1 <= INT_MAX -> res = Done (mk (- st.1)) w') /\
  (- INT_MAX <= st.1 < 0 ->
     res = if NDEBUG then Done (mk (- st.1)) w' else Fault AssertFailed).

(** A relation between the world before and after that every step which
    only runs outside code or extends the trace keeps. *)
Class FrameRel {S} (R : world S -> world S -> Prop) : Prop := {
  frame_refl : forall w, R w w;
  frame_trans : forall w1 w2 w3, R w1 w2 -> R w2 w3 -> R w1 w3;
  frame_ext : forall w s tr, R w (World s (w_pages w) (w_znodes w) tr);
}.

(** What a transfer returns when the engine keeps to its interface (a
    status that is [0] or a positive errno, a residual between [0] and the
    requested length): [status] is the engine's status, [res] the outcome. *)
Definition transfer_bounds {S} (len status : Z) (res : outcome S Z) : Prop :=
  exists (n : Z) (w' : world S),
    res = Done n w' /\
    - INT_MAX <= n <= len /\
    (0 < status -> n = - status) /\
    (status = 0 -> 0 <= n).

(** What one test of [zpl_get_ioctl_flags] adds to the result. *)
Definition pick (b : bool) (bit : Z) : Z := if b then bit else 0.

(** Where [zpl_read] and [zpl_write] leave the position when the engine
    keeps to its interface: [status] and [resid] are the engine's status and
    the residual it left, [res] the outcome of the call. *)
Definition position_bounds {S} (ppos len status resid : Z)
    (res : outcome S (Z * Z)) : Prop :=
  exists (n ppos' : Z) (w' : world S),
    res = Done (n, ppos') w' /\
    ppos <= ppos' <= ppos + len /\
    (0 < status -> n = - status /\ ppos' = ppos) /\
    (status = 0 -> n = len - resid /\ ppos' = ppos + n).

(** * Properties *)

(** ** C integers *)
Section CIntFacts.

Lemma wrap_s_id w x :
  0 < w -> - 2 ^ (w - 1) <= x < 2 ^ (w - 1) -> wrap_s w x = x.
Proof.
  intros Hw Hx. unfold wrap_s.
  assert (E : 2 ^ w = 2 * 2 ^ (w - 1)).
  { replace w with (Z.succ (w - 1)) at 1 by lia. apply Z.pow_succ_r. lia. }
  rewrite E. rewrite Z.mod_small; lia.
Qed.

Lemma to_int_id x : INT_MIN <= x <= INT_MAX -> to_int x = x.
Proof. unfold INT_MIN, INT_MAX. intros H. apply wrap_s_id; simpl; lia. Qed.

Lemma to_s64_id x : LLONG_MIN <= x <= LLONG_MAX -> to_s64 x = x.
Proof. unfold LLONG_MIN, LLONG_MAX. intros H. apply wrap_s_id; simpl; lia. Qed.

Lemma to_int_range x : INT_MIN <= to_int x <= INT_MAX.
Proof.
  unfold to_int, wrap_s, INT_MIN, INT_MAX.
  pose proof (Z.mod_pos_bound (x + 2 ^ (32 - 1)) (2 ^ 32) ltac:(lia)).
  change (2 ^ (32 - 1)) with 2147483648 in *.
  change (2 ^ 32) with 4294967296 in *.
  change (2 ^ 31) with 2147483648. lia.
Qed.

(** Negating an [int] other than [INT_MIN] is the mathematical negation. *)
Lemma neg_int_opp x : INT_MIN < x <= INT_MAX -> neg_int x = - x.
Proof.
  unfold INT_MIN, INT_MAX. intros H. unfold neg_int.
  rewrite (to_int_id x) by (unfold INT_MIN, INT_MAX; lia).
  apply to_int_id. unfold INT_MIN, INT_MAX. lia.
Qed.

(** A positive errno comes back as its negative. *)
Lemma neg_int_pos x : 0 < x <= INT_MAX -> neg_int x = - x /\ neg_int x < 0.
Proof.
  intros H. rewrite neg_int_opp by (unfold INT_MIN, INT_MAX in *; lia). lia.
Qed.

(** The negated status is zero exactly when the [int] status is. *)
Lemma neg_int_eq_0 x : neg_int x = 0 <-> to_int x = 0.
Proof.
  unfold neg_int. pose proof (to_int_range x) as R.
  split; intros H; [|rewrite H; reflexivity].
  destruct (Z.eq_dec (to_int x) INT_MIN) as [E|E].
  - rewrite E in H. vm_compute in H. discriminate.
  - rewrite to_int_id in H by (unfold INT_MIN, INT_MAX in *; lia). lia.
Qed.

Lemma nonzero_false x : nonzero x = false <-> x = 0.
Proof. unfold nonzero. destruct (Z.eqb_spec x 0); simpl; split; congruence. Qed.

Lemma nonzero_true x : nonzero x = true <-> x <> 0.
Proof. unfold nonzero. destruct (Z.eqb_spec x 0); simpl; split; congruence. Qed.

End CIntFacts.

(** ** Running the monad *)
Section MonadFacts.
Context {S : Type}.

Lemma bind_inv {A B} (m : M S A) (k : A -> M S B) w b w2 :
  (m ≫= k) w = Done b w2 ->
  exists a w1, m w = Done a w1 /\ k a w1 = Done b w2.
Proof.
  unfold mbind, M_bind. destruct (m w) as [a w1|f]; [eauto|discriminate].
Qed.

Lemma is_page_ev_same op pp : is_page_ev op pp (EvPage op pp) = true.
Proof.
  unfold is_page_ev. rewrite !bool_decide_eq_true_2 by reflexivity. reflexivity.
Qed.

Lemma is_page_ev_other op op' pp pp' :
  op' <> op -> is_page_ev op pp (EvPage op' pp') = false.
Proof.
  intros H. unfold is_page_ev. rewrite (bool_decide_eq_false_2 _ H).
  reflexivity.
Qed.

Lemma count_page_ev_cons op pp e tr :
  count_page_ev op pp (e :: tr) =
    ((if is_page_ev op pp e then 1 else 0) + count_page_ev op pp tr)%nat.
Proof.
  unfold count_page_ev. simpl. destruct (is_page_ev op pp e); reflexivity.
Qed.

End MonadFacts.

(** Unfolds one call down to the primitives and runs what computes. *)
Ltac zpl_unfold :=
  unfold mbind, M_bind, mret, M_ret, emit, call, query, fail, ASSERT,
    PageLocked, page_get, SetPageError, ClearPageError, SetPageUptodate,
    ClearPageUptodate, flush_dcache_page, unlock_page,
    page_cache_release, page_do.

(** ** The I/O vector adapter *)
Section Adapter.
Context {S : Type} {Eng : Engine S} {Hst : Host S}.

(** The two transfers always return: their outcome from the engine's
    answer. *)
Lemma zpl_read_common_eq (w : world S) ip buf len pos segment flags cr :
  zpl_read_common ip buf len pos segment flags cr w =
    let uio := mk_uio buf len pos segment in
    let ans := zfs_read ip uio flags cr (w_ext w) in
    Done (if neg_int ans.1.1 <? 0 then neg_int ans.1.1
          else to_s64 (len - uio_resid ans.1.2))
         (World ans.2 (w_pages w) (w_znodes w)
                (w_trace w ++ [EvZfsRead ip uio flags])).
Proof.
  unfold zpl_read_common. zpl_unfold. simpl.
  destruct (zfs_read ip (mk_uio buf len pos segment) flags cr (w_ext w))
    as [[r uio'] s']. simpl.
  destruct (neg_int r <? 0); reflexivity.
Qed.

Lemma zpl_write_common_eq (w : world S) ip buf len pos segment flags cr :
  zpl_write_common ip buf len pos segment flags cr w =
    let uio := mk_uio buf len pos segment in
    let ans := zfs_write ip uio flags cr (w_ext w) in
    Done (if neg_int ans.1.1 <? 0 then neg_int ans.1.1
          else to_s64 (len - uio_resid ans.1.2))
         (World ans.2 (w_pages w) (w_znodes w)
                (w_trace w ++ [EvZfsWrite ip uio flags])).
Proof.
  unfold zpl_write_common. zpl_unfold. simpl.
  destruct (zfs_write ip (mk_uio buf len pos segment) flags cr (w_ext w))
    as [[r uio'] s']. simpl.
  destruct (neg_int r <? 0); reflexivity.
Qed.

(** The value lines 130-133 and 173-176 return from the engine's answer. *)
Lemma transfer_result (w : world S) (len : Z) (ev : event)
    (r : Z) (uio' : uio_t) (s' : S) :
  transfer_contract w len ev ((r, uio'), s')
    (Done (if neg_int r <? 0 then neg_int r else to_s64 (len - uio_resid uio'))
          (World s' (w_pages w) (w_znodes w) (w_trace w ++ [ev]))).
Proof.
  unfold transfer_contract. simpl. eexists. split; [reflexivity|].
  assert (Hid : forall x, 0 <= x <= LLONG_MAX -> to_s64 x = x).
  { intros x Hx. apply to_s64_id. unfold LLONG_MIN, LLONG_MAX in *. lia. }
  repeat split.
  - intros Hr. destruct (neg_int_pos r Hr) as [E Hneg].
    rewrite (proj2 (Z.ltb_lt _ _) Hneg). exact E.
  - intros ->. reflexivity.
  - subst r. change (neg_int 0 <? 0) with false. cbv iota.
    rewrite Hid by lia. reflexivity.
  - subst r. change (neg_int 0 <? 0) with false. cbv iota.
    rewrite Hid by lia. lia.
  - subst r. change (neg_int 0 <? 0) with false. cbv iota.
    rewrite Hid by lia. lia.
  - subst r. change (neg_int 0 <? 0) with false. cbv iota.
    rewrite Hid by lia. lia.
  - subst r. change (neg_int 0 <? 0) with false. cbv iota.
    rewrite Hid by lia. lia.
Qed.

(** C3.  [zpl_read_common] and [zpl_write_common] build one [uio_t] over a
    single vector, with the residual set to the requested length, the
    offset as given and [MAXOFFSET_T] as limit, and make one engine call
    with it.  A positive engine errno comes back negated, whatever the
    engine left in the residual; on status zero the call returns the length
    minus the residual the engine left, which is below the length when the
    engine left some of it. *)
Theorem io_vector_adapter (w : world S) (ip buf : N) (len pos : Z)
    (segment : uio_seg_t) (flags : Z) (cr : N) :
  let uio := mk_uio buf len pos segment in
  (uio_iov uio = [{| iov_base := buf; iov_len := len |}] /\
   uio_iovcnt uio = 1 /\
   uio_resid uio = to_s64 len /\
   (0 <= len <= LLONG_MAX -> uio_resid uio = len) /\
   uio_loffset uio = pos /\
   uio_limit uio = MAXOFFSET_T /\
   uio_segflg uio = segment) /\
  transfer_contract w len (EvZfsRead ip uio flags)
    (zfs_read ip uio flags cr (w_ext w))
    (zpl_read_common ip buf len pos segment flags cr w) /\
  transfer_contract w len (EvZfsWrite ip uio flags)
    (zfs_write ip uio flags cr (w_ext w))
    (zpl_write_common ip buf len pos segment flags cr w).
Proof.
  intros uio. split; [|split].
  - repeat split. intros Hlen. simpl. apply to_s64_id.
    unfold LLONG_MIN, LLONG_MAX in *. lia.
  - rewrite zpl_read_common_eq. cbv zeta. fold uio.
    destruct (zfs_read ip uio flags cr (w_ext w)) as [[r uio'] s'].
    apply transfer_result.
  - rewrite zpl_write_common_eq. cbv zeta. fold uio.
    destruct (zfs_write ip uio flags cr (w_ext w)) as [[r uio'] s'].
    apply transfer_result.
Qed.



End Adapter.

(** ** The page-cache synchroniser *)
Section Synchroniser.
Context {S : Type} {Eng : Engine S} {Hst : Host S} {C : ZfsConsts}.

(** The marking and the unlock that end [zpl_readpage] and [zpl_putpage]
    (lines 339-349 and 359-369). *)
Lemma mark_and_unlock (error : Z) (pp : N) (pg : page) (w : world S) :
  w_pages w !! pp = Some pg ->
  exists (pg' : page) (tr : list event),
    ((if nonzero error then SetPageError pp ;; ClearPageUptodate pp
      else ClearPageError pp ;; SetPageUptodate pp ;; flush_dcache_page pp) ;;
     unlock_page pp ;; mret error) w
    = Done error (World (w_ext w) (<[pp := pg']> (w_pages w)) (w_znodes w)
                        (w_trace w ++ tr)) /\
    count_page_ev OpUnlockPage pp tr = 1%nat /\
    last tr = Some (EvPage OpUnlockPage pp) /\
    PG_locked pg' = false /\
    pg_count pg' = pg_count pg /\
    (error = 0 ->
       tr = [EvPage OpClearPageError pp; EvPage OpSetPageUptodate pp;
             EvPage OpFlushDcachePage pp; EvPage OpUnlockPage pp] /\
       PG_error pg' = false /\ PG_uptodate pg' = true) /\
    (error <> 0 ->
       tr = [EvPage OpSetPageError pp; EvPage OpClearPageUptodate pp;
             EvPage OpUnlockPage pp] /\
       PG_error pg' = true /\ PG_uptodate pg' = false).
Proof.
  intros Hpg.
  destruct (nonzero error) eqn:Hnz;
    [apply nonzero_true in Hnz | apply nonzero_false in Hnz];
    eexists _, _; zpl_unfold; simpl; rewrite Hpg; simpl;
    repeat (rewrite lookup_insert_eq; simpl);
    rewrite !insert_insert_eq, <- !app_assoc; simpl;
    (split; [reflexivity|]); simpl;
    repeat split; try reflexivity; try contradiction; try congruence;
    rewrite !count_page_ev_cons, is_page_ev_same,
      !is_page_ev_other by discriminate; reflexivity.
Qed.

(** C1.  A single-page populate call ([zpl_readpage], on a page its caller
    holds locked) and a single-page flush call ([zpl_putpage]) return the
    engine's negated status whether the engine succeeded or failed, and
    have by then unlocked the page exactly once, as their last action: after
    clearing the error bit, setting uptodate and flushing the data cache
    when the engine succeeded, after setting the error bit and clearing
    uptodate when it failed. *)
Theorem single_page_unlock_once (w : world S) (pp wbc data : N) (pg : page) :
  w_pages w !! pp = Some pg ->
  (PG_locked pg = true ->
   single_page_contract w pp pg
     (EvZfsGetpage (pg_host pg) [Some pp] 1)
     (zfs_getpage (pg_host pg) [Some pp] 1 (w_ext w))
     (zpl_readpage pp w))
  /\
  single_page_contract w pp pg
    (EvZfsPutpage pp wbc data)
    (zfs_putpage pp wbc data (w_ext w))
    (zpl_putpage pp wbc data w).
Proof.
  intros Hpg. split; [intros Hlocked|].
  - unfold single_page_contract, zpl_readpage.
    destruct (zfs_getpage (pg_host pg) [Some pp] 1 (w_ext w)) as [r s] eqn:E.
    set (w1 := World s (w_pages w) (w_znodes w)
                 (w_trace w ++ [EvZfsGetpage (pg_host pg) [Some pp] 1])).
    destruct (mark_and_unlock (neg_int r) pp pg w1 Hpg)
      as (pg' & tr & Hrun & Hcnt & Hlast & Hl & Hc & Hok & Hko).
    subst w1. simpl in Hrun.
    exists (World s (<[pp := pg']> (w_pages w)) (w_znodes w)
              ((w_trace w ++ [EvZfsGetpage (pg_host pg) [Some pp] 1]) ++ tr)),
      pg', tr.
    split.
    { simpl. rewrite <- Hrun. zpl_unfold. simpl. rewrite Hpg. simpl.
      rewrite Hlocked, orb_true_r. simpl. rewrite Hpg. simpl. rewrite E.
      reflexivity. }
    simpl. rewrite <- app_assoc. simpl. tauto.
  - unfold single_page_contract, zpl_putpage.
    destruct (zfs_putpage pp wbc data (w_ext w)) as [r s] eqn:E.
    set (w1 := World s (w_pages w) (w_znodes w)
                 (w_trace w ++ [EvZfsPutpage pp wbc data])).
    destruct (mark_and_unlock (neg_int r) pp pg w1 Hpg)
      as (pg' & tr & Hrun & Hcnt & Hlast & Hl & Hc & Hok & Hko).
    subst w1. simpl in Hrun.
    exists (World s (<[pp := pg']> (w_pages w)) (w_znodes w)
                  ((w_trace w ++ [EvZfsPutpage pp wbc data]) ++ tr)), pg', tr.
    split.
    { simpl. rewrite <- Hrun. zpl_unfold. simpl. rewrite E. reflexivity. }
    simpl. rewrite <- app_assoc. simpl. tauto.
Qed.

(** The array [pages_vector_from_list] builds: the pages from the tail of
    the list to its head, then the slots the list does not reach. *)
Lemma fill_vector_ok (ts : list N) :
  forall (pre : list (option N)) (k : nat),
    (length ts <= k)%nat ->
    fill_vector ts (length pre) (pre ++ replicate k None)
    = Some (pre ++ (Some <$> ts) ++ replicate (k - length ts) None).
Proof.
  induction ts as [|t ts IH]; intros pre k Hk; simpl.
  - rewrite Nat.sub_0_r. reflexivity.
  - destruct k as [|k]; [simpl in Hk; lia|].
    rewrite decide_True by (rewrite length_app; simpl; lia).
    replace (<[length pre := Some t]> (pre ++ replicate (Datatypes.S k) None))
      with ((pre ++ [Some t]) ++ replicate k None).
    + replace (length pre + 1)%nat with (length (pre ++ [Some t]))
        by (rewrite length_app; reflexivity).
      rewrite IH by (simpl in Hk; lia).
      rewrite <- app_assoc. reflexivity.
    + rewrite <- app_assoc. simpl.
      rewrite insert_app_r_alt by lia.
      rewrite Nat.sub_diag. reflexivity.
Qed.

(** C2.  When the one engine call of a batched populate ([zpl_readpages])
    fails, the call returns the engine's negated status and hands the list
    back as it was; no page primitive has run, so every page of the list is
    as it was found, still locked and unmarked. *)
Theorem readpages_batch_failure (w : world S) (ip : N) (pages : list N)
    (nr_pages : nat) :
  (length pages <= nr_pages)%nat ->
  (kmalloc (8 * Z.of_nat nr_pages) (w_ext w)).1 = true ->
  let s1 := (kmalloc (8 * Z.of_nat nr_pages) (w_ext w)).2 in
  let pl := (Some <$> rev pages) ++ replicate (nr_pages - length pages) None in
  let st := zfs_getpage ip pl (Z.of_nat nr_pages) s1 in
  neg_int st.1 <> 0 ->
  exists (w' : world S) (tr : list event),
    zpl_readpages ip pages nr_pages w = Done (neg_int st.1, pages) w' /\
    w_ext w' = st.2 /\
    w_pages w' = w_pages w /\
    w_trace w' = w_trace w ++ tr /\
    tr = [EvKmalloc (8 * Z.of_nat nr_pages);
          EvZfsGetpage ip pl (Z.of_nat nr_pages); EvKfree] /\
    (forall op p, count_page_ev op p tr = 0%nat) /\
    (forall p pg, p ∈ pages -> w_pages w !! p = Some pg ->
                  w_pages w' !! p = Some pg).
Proof.
  intros Hlen Hk s1 pl st Hfail. subst s1 pl st.
  destruct (kmalloc (8 * Z.of_nat nr_pages) (w_ext w)) as [ok s1] eqn:Ek.
  simpl in Hk. subst ok. simpl in *.
  destruct (zfs_getpage ip
              ((Some <$> rev pages) ++ replicate (nr_pages - length pages) None)
              (Z.of_nat nr_pages) s1) as [r s2] eqn:Eg.
  simpl in *.
  pose proof (fill_vector_ok (rev pages) [] nr_pages) as Hfill.
  rewrite length_rev in Hfill. specialize (Hfill Hlen). simpl in Hfill.
  eexists _, _. split.
  { unfold zpl_readpages, pages_vector_from_list. zpl_unfold. simpl.
    rewrite Ek. simpl. rewrite Hfill. simpl. rewrite Eg. simpl.
    apply nonzero_true in Hfail. rewrite Hfail. reflexivity. }
  simpl. rewrite <- !app_assoc. simpl.
  repeat split; try reflexivity.
  intros p pg _ H. exact H.
Qed.

(** *** The mapped flag is never cleared *)

Lemma keeps_ret {A} (a : A) : keeps_mapped (mret a : M S A).
Proof. intros w a' w' H ip Hm. inversion H; subst. exact Hm. Qed.

Lemma keeps_bind {A B} (m : M S A) (k : A -> M S B) :
  keeps_mapped m -> (forall a, keeps_mapped (k a)) -> keeps_mapped (m ≫= k).
Proof.
  intros Hm Hk w b w2 H ip Hip.
  apply bind_inv in H as (a & w1 & H1 & H2).
  eapply Hk; [exact H2|]. eapply Hm; [exact H1 | exact Hip].
Qed.

Lemma keeps_emit e : keeps_mapped (emit e : M S unit).
Proof. intros w a w' H ip Hm. inversion H; subst. exact Hm. Qed.

Lemma keeps_call {A} (f : S -> A * S) : keeps_mapped (call f).
Proof.
  intros w a w' H ip Hm. unfold call in H.
  destruct (f (w_ext w)). inversion H; subst. exact Hm.
Qed.

Lemma keeps_query {A} (f : S -> A) : keeps_mapped (query f).
Proof. intros w a w' H ip Hm. inversion H; subst. exact Hm. Qed.

Lemma keeps_fail {A} f : keeps_mapped (fail f : M S A).
Proof. intros w a w' H. discriminate. Qed.

Lemma keeps_ASSERT c : keeps_mapped (ASSERT c).
Proof.
  unfold ASSERT. destruct (NDEBUG || c); [apply keeps_ret | apply keeps_fail].
Qed.

Lemma keeps_page_get {A} (f : page -> A) pp :
  keeps_mapped (page_get f pp : M S A).
Proof.
  intros w a w' H ip Hm. unfold page_get in H.
  destruct (w_pages w !! pp); inversion H; subst. exact Hm.
Qed.

Lemma keeps_page_do op f pp : keeps_mapped (page_do op f pp : M S unit).
Proof.
  intros w a w' H ip Hm. unfold page_do in H.
  destruct (w_pages w !! pp); inversion H; subst. exact Hm.
Qed.

Lemma keeps_znode_store (w : world S) ip zp zp' ip' :
  w_znodes w !! ip = Some zp ->
  (z_is_mapped zp <> 0 -> z_is_mapped zp' <> 0) ->
  is_mapped w ip' ->
  exists z, <[ip := zp']> (w_znodes w) !! ip' = Some z /\ z_is_mapped z <> 0.
Proof.
  intros Hzp Hmono (z & Hz & Hnz).
  destruct (decide (ip = ip')) as [->|Hne].
  - rewrite lookup_insert_eq. exists zp'. split; [reflexivity|].
    apply Hmono. congruence.
  - rewrite lookup_insert_ne by exact Hne. eauto.
Qed.

Lemma keeps_mutex_enter ip : keeps_mapped (mutex_enter ip : M S unit).
Proof.
  intros w a w' H ip' Hm. unfold mutex_enter in H.
  destruct (w_znodes w !! ip) as [zp|] eqn:E; [|discriminate].
  destruct (z_lock zp); inversion H; subst.
  eapply keeps_znode_store; eauto.
Qed.

Lemma keeps_mutex_exit ip : keeps_mapped (mutex_exit ip : M S unit).
Proof.
  intros w a w' H ip' Hm. unfold mutex_exit in H.
  destruct (w_znodes w !! ip) as [zp|] eqn:E; inversion H; subst.
  eapply keeps_znode_store; eauto.
Qed.

(** The one store of the file writes [1]. *)
Lemma keeps_store_z_is_mapped ip v :
  v <> 0 -> keeps_mapped (store_z_is_mapped ip v : M S unit).
Proof.
  intros Hv w a w' H ip' Hm. unfold store_z_is_mapped in H.
  destruct (w_znodes w !! ip) as [zp|] eqn:E; inversion H; subst.
  eapply keeps_znode_store; eauto.
Qed.

Create HintDb zpl_keeps.
#[local] Hint Resolve keeps_ret keeps_emit keeps_call keeps_query keeps_fail
  keeps_ASSERT keeps_page_get keeps_page_do keeps_mutex_enter keeps_mutex_exit
  : zpl_keeps.

(** Walks a body made of binds, conditionals and primitives. *)
Ltac keeps :=
  repeat first
    [ solve [auto with zpl_keeps]
    | apply keeps_page_do
    | apply keeps_page_get
    | apply keeps_store_z_is_mapped; discriminate
    | apply keeps_bind; [|intros ?]
    | match goal with
      | |- keeps_mapped (if ?b then _ else _) => destruct b
      | |- keeps_mapped (match ?x with _ => _ end) => destruct x
      end ].

Lemma keeps_zpl_read_common ip buf len pos seg flags cr :
  keeps_mapped (zpl_read_common ip buf len pos seg flags cr).
Proof. unfold zpl_read_common. keeps. Qed.

Lemma keeps_zpl_write_common ip buf len pos seg flags cr :
  keeps_mapped (zpl_write_common ip buf len pos seg flags cr).
Proof. unfold zpl_write_common. keeps. Qed.

Lemma keeps_zpl_putpage pp wbc data : keeps_mapped (zpl_putpage pp wbc data).
Proof. unfold zpl_putpage. keeps. Qed.

Lemma keeps_readpages_loop ps :
  forall pages, keeps_mapped (readpages_loop (S:=S) ps pages).
Proof.
  induction ps as [|p ps IH]; intros pages; simpl; [apply keeps_ret|].
  unfold list_del. keeps.
Qed.

Lemma keeps_write_cache_pages_walk ps wbc data :
  keeps_mapped (write_cache_pages_walk ps wbc zpl_putpage data).
Proof.
  induction ps as [|p ps IH]; simpl; [apply keeps_ret|].
  apply keeps_bind; [apply keeps_zpl_putpage|intros e].
  destruct (nonzero e); [apply keeps_ret | apply IH].
Qed.

#[local] Hint Resolve keeps_zpl_read_common keeps_zpl_write_common
  keeps_zpl_putpage keeps_readpages_loop keeps_write_cache_pages_walk
  : zpl_keeps.

Lemma keeps_run_op (op : zpl_op) : keeps_mapped (run_op op).
Proof.
  destruct op; simpl.
  - unfold zpl_open. keeps.
  - unfold zpl_release. keeps.
  - unfold zpl_readdir. keeps.
  - unfold zpl_fsync. keeps.
  - unfold zpl_read. keeps.
  - unfold zpl_write. keeps.
  - unfold zpl_mmap. keeps.
  - unfold zpl_readpages, pages_vector_from_list. keeps.
  - unfold zpl_readpage. keeps.
  - unfold zpl_writepage. keeps.
  - unfold zpl_writepages, write_cache_pages. keeps.
  - unfold zpl_ioctl, zpl_ioctl_getflags, zpl_ioctl_setflags. keeps.
Qed.

(** C8.  [zpl_mmap] asks the engine first and, when the engine fails,
    returns its negated status having called nothing else: no page-table
    setup, no store.  When the host's setup fails the flag is not touched
    either.  When both succeed the flag is set to [1] between taking and
    releasing the znode's lock.  No entry point of the file turns a mapped
    flag that is set back to zero. *)
Theorem mmap_sets_mapped_flag (w : world S) (filp : file)
    (vma : vm_area_struct) :
  let ip := f_host filp in
  let len := wrap_u 64 (vm_end vma - vm_start vma) in
  let ev_map := EvZfsMap ip (vm_pgoff vma) (vm_start vma) len (vm_flags vma) in
  let e :=
    zfs_map ip (vm_pgoff vma) (vm_start vma) len (vm_flags vma) (w_ext w) in
  let h := generic_file_mmap filp vma e.2 in
  (neg_int e.1 <> 0 ->
     zpl_mmap filp vma w
     = Done (neg_int e.1)
         (World e.2 (w_pages w) (w_znodes w) (w_trace w ++ [ev_map])))
  /\
  (neg_int e.1 = 0 -> to_int h.1 <> 0 ->
     zpl_mmap filp vma w
     = Done (to_int h.1)
         (World h.2 (w_pages w) (w_znodes w)
            (w_trace w ++ [ev_map; EvGenericFileMmap ip])))
  /\
  (neg_int e.1 = 0 -> to_int h.1 = 0 ->
     forall zp, w_znodes w !! ip = Some zp -> z_lock zp = false ->
     zpl_mmap filp vma w
     = Done 0
         (World h.2 (w_pages w)
            (<[ip := {| z_is_mapped := 1; z_lock := false |}]> (w_znodes w))
            (w_trace w ++ [ev_map; EvGenericFileMmap ip; EvMutexEnter ip;
                           EvStoreIsMapped ip 1; EvMutexExit ip])))
  /\
  (forall (op : zpl_op) (r : Z) (w' : world S) (ip' : N),
     run_op op w = Done r w' -> is_mapped w ip' -> is_mapped w' ip').
Proof.
  intros ip len ev_map e h. subst h e.
  destruct (zfs_map ip (vm_pgoff vma) (vm_start vma) len (vm_flags vma) (w_ext w))
    as [r s1] eqn:Em.
  simpl.
  destruct (generic_file_mmap filp vma s1) as [hr s2] eqn:Eh.
  simpl. repeat split.
  - intros Hr. apply nonzero_true in Hr.
    unfold zpl_mmap. zpl_unfold. simpl. fold ip len. rewrite Em. simpl.
    rewrite Hr. reflexivity.
  - intros Hr Hh. apply nonzero_false in Hr. apply nonzero_true in Hh.
    unfold zpl_mmap. zpl_unfold. simpl. fold ip len. rewrite Em. simpl.
    rewrite Hr. simpl. rewrite Eh. simpl. rewrite Hh.
    rewrite <- app_assoc. reflexivity.
  - intros Hr Hh zp Hzp Hlock. rewrite <- Hh.
    apply nonzero_false in Hr, Hh.
    unfold zpl_mmap, mutex_enter, store_z_is_mapped, mutex_exit.
    zpl_unfold. simpl. fold ip len. rewrite Em. simpl.
    rewrite Hr. simpl. rewrite Eh. simpl. rewrite Hh. simpl.
    rewrite Hzp, Hlock. simpl.
    repeat (rewrite lookup_insert_eq; simpl).
    rewrite !insert_insert_eq, <- !app_assoc. simpl.
    apply nonzero_false in Hh. rewrite Hh. reflexivity.
  - intros op r' w' ip' Hrun. exact (keeps_run_op op w r' w' Hrun ip').
Qed.

End Synchroniser.

Lemma single_page_unlock_once_witness :
  w_pages (Sample.world0 Sample.sim0) !! 100%N = Some Sample.fresh_page /\
  single_page_contract (Sample.world0 Sample.sim0) 100 Sample.fresh_page
    (EvZfsGetpage 7 [Some 100%N] 1) (0, Sample.sim0)
    (zpl_readpage 100 (Sample.world0 Sample.sim0)) /\
  single_page_contract (Sample.world0 Sample.sim0) 100 Sample.fresh_page
    (EvZfsPutpage 100 0x3000 70) (0, Sample.sim0)
    (zpl_putpage 100 0x3000 70 (Sample.world0 Sample.sim0)).
Proof.
  assert (H : w_pages (Sample.world0 Sample.sim0) !! 100%N = Some Sample.fresh_page)
    by reflexivity.
  destruct (single_page_unlock_once (Sample.world0 Sample.sim0) 100 0x3000 70
              Sample.fresh_page H) as [Hread Hput].
  split; [exact H|]. split; [exact (Hread eq_refl) | exact Hput].
Defined.

Lemma readpages_batch_failure_witness :
  exists w',
    zpl_readpages 7 [100%N; 101%N; 102%N] 3
      (Sample.world0 (Sample.with_errno 5 Sample.sim0))
    = Done (-5, [100%N; 101%N; 102%N]) w' /\
    w_pages w' = w_pages (Sample.world0 (Sample.with_errno 5 Sample.sim0)).
Proof.
  destruct (readpages_batch_failure
              (Sample.world0 (Sample.with_errno 5 Sample.sim0)) 7
              [100%N; 101%N; 102%N] 3)
    as (w' & tr & Hrun & _ & Hpages & _).
  - simpl. lia.
  - reflexivity.
  - vm_compute. discriminate.
  - exists w'. split; [exact Hrun | exact Hpages].
Defined.

Lemma mmap_sets_mapped_flag_witness :
  zpl_mmap Sample.file0 Sample.vma0 (Sample.world0 (Sample.with_errno 5 Sample.sim0))
  = Done (-5)
      (World (Sample.with_errno 5 Sample.sim0)
         (w_pages (Sample.world0 Sample.sim0))
         (w_znodes (Sample.world0 Sample.sim0))
         [EvZfsMap 7 0 0x7f0000000000 0x2000 0xfb])
  /\
  zpl_mmap Sample.file0 Sample.vma0 (Sample.world0 Sample.sim0)
  = Done 0
      (World Sample.sim0
         (w_pages (Sample.world0 Sample.sim0))
         (<[7%N := {| z_is_mapped := 1; z_lock := false |}]>
            (w_znodes (Sample.world0 Sample.sim0)))
         [EvZfsMap 7 0 0x7f0000000000 0x2000 0xfb; EvGenericFileMmap 7;
          EvMutexEnter 7; EvStoreIsMapped 7 1; EvMutexExit 7]).
Proof.
  split.
  - pose proof (mmap_sets_mapped_flag
                  (Sample.world0 (Sample.with_errno 5 Sample.sim0))
                  Sample.file0 Sample.vma0) as H.
    cbv zeta in H. destruct H as (H & _).
    apply H. vm_compute. discriminate.
  - pose proof (mmap_sets_mapped_flag (Sample.world0 Sample.sim0)
                  Sample.file0 Sample.vma0) as H.
    cbv zeta in H. destruct H as (_ & _ & H & _).
    apply (H eq_refl eq_refl {| z_is_mapped := 0; z_lock := false |});
      reflexivity.
Defined.

Lemma io_vector_adapter_witness :
  zpl_read_common 7 0x1000 4096 4000 UIO_USERSPACE 0 1
    (Sample.world0 Sample.sim0)
  = Done 1000
      (World Sample.sim0 (w_pages (Sample.world0 Sample.sim0))
         (w_znodes (Sample.world0 Sample.sim0))
         [EvZfsRead 7 (mk_uio 0x1000 4096 4000 UIO_USERSPACE) 0])
  /\
  zpl_write_common 7 0x1000 4096 4000 UIO_USERSPACE 0 1
    (Sample.world0 (Sample.with_errno 28 Sample.sim0))
  = Done (-28)
      (World (Sample.with_errno 28 Sample.sim0)
         (w_pages (Sample.world0 Sample.sim0))
         (w_znodes (Sample.world0 Sample.sim0))
         [EvZfsWrite 7 (mk_uio 0x1000 4096 4000 UIO_USERSPACE) 0]).
Proof.
  split.
  - destruct (io_vector_adapter (Sample.world0 Sample.sim0) 7 0x1000 4096 4000
                UIO_USERSPACE 0 1) as (_ & (n & Hrun & _ & _ & Hn & _) & _).
    rewrite Hrun.
    assert (E : n = 1000).
    { refine (proj1 (Hn eq_refl _ _)); vm_compute; intuition discriminate. }
    rewrite E. reflexivity.
  - destruct (io_vector_adapter (Sample.world0 (Sample.with_errno 28 Sample.sim0))
                7 0x1000 4096 4000 UIO_USERSPACE 0 1)
      as (_ & _ & (n & Hrun & Hn & _)).
    rewrite Hrun.
    assert (E : n = -28).
    { apply Hn. vm_compute. intuition discriminate. }
    rewrite E. reflexivity.
Defined.


(** A file opened with the top bit of [f_flags] set: the engine is called
    with the flags as the [int] they convert to. *)
Example zpl_read_flags_as_int :
  exists w',
    zpl_read {| f_mode := 1; f_flags := 0x80000000; f_host := 7; f_inode := 7 |}
      0x1000 4096 4000 (Sample.world0 Sample.sim0)
    = Done (1000, 5000) w' /\
    exists cr,
      w_trace w' = [EvCrhold cr;
                    EvZfsRead 7 (mk_uio 0x1000 4096 4000 UIO_USERSPACE)
                      (-2147483648);
                    EvCrfree cr].
Proof. eexists. split; [vm_compute; reflexivity|]. eexists. reflexivity. Qed.

(** ** The attribute flag translator *)
Section TranslatorFacts.
Context {C : ZfsConsts}.

Lemma land_pow2 (f k : Z) :
  0 <= k -> Z.land f (2 ^ k) = if Z.testbit f k then 2 ^ k else 0.
Proof.
  intros Hk. apply Z.bits_inj'. intros n Hn.
  rewrite Z.land_spec, Z.pow2_bits_eqb by exact Hk.
  destruct (Z.eqb_spec k n) as [->|Hne].
  - destruct (Z.testbit f n) eqn:B.
    + rewrite Z.pow2_bits_eqb, Z.eqb_refl by exact Hn. reflexivity.
    + rewrite Z.bits_0. reflexivity.
  - rewrite andb_false_r. destruct (Z.testbit f k).
    + rewrite Z.pow2_bits_eqb by exact Hk.
      symmetry. apply Z.eqb_neq. exact Hne.
    + rewrite Z.bits_0. reflexivity.
Qed.

(** Testing a one-bit flag and keeping it is masking with it. *)
Lemma keep_if_set (f x : Z) :
  (exists k, 0 <= k < 64 /\ x = 2 ^ k) ->
  (if nonzero (Z.land f x) then x else 0) = Z.land f x.
Proof.
  intros (k & Hk & ->). rewrite land_pow2 by lia.
  destruct (Z.testbit f k).
  - assert (0 < 2 ^ k) by (apply Z.pow_pos_nonneg; lia).
    rewrite (proj2 (nonzero_true (2 ^ k))) by lia. reflexivity.
  - reflexivity.
Qed.

(** A word inside a mask is its own intersection with the mask. *)
Lemma land_within (f m : Z) : Z.land f (Z.lnot m) = 0 -> Z.land f m = f.
Proof.
  intros H. apply Z.bits_inj'. intros n Hn.
  assert (B : Z.testbit (Z.land f (Z.lnot m)) n = false)
    by (rewrite H; apply Z.bits_0).
  rewrite Z.land_spec, Z.lnot_spec in B by exact Hn.
  rewrite Z.land_spec.
  destruct (Z.testbit f n), (Z.testbit m n); simpl in *; congruence.
Qed.

(** Splits on the six tests of [zpl_get_ioctl_flags] and computes. *)
Ltac six_tests f :=
  unfold zpl_get_ioctl_flags;
  destruct (nonzero (Z.land f ZFS_IMMUTABLE));
  destruct (nonzero (Z.land f ZFS_APPENDONLY));
  destruct (nonzero (Z.land f ZFS_NODUMP));
  destruct (nonzero (Z.land f ZFS_DIRSYNC));
  destruct (nonzero (Z.land f ZFS_SYNC));
  destruct (nonzero (Z.land f ZFS_NOATIME));
  reflexivity.

(** Each external bit of the translation answers one internal test. *)
Lemma ext_immutable f :
  nonzero (Z.land (zpl_get_ioctl_flags f) FS_IMMUTABLE_FL)
  = nonzero (Z.land f ZFS_IMMUTABLE).
Proof. six_tests f. Qed.

Lemma ext_append f :
  nonzero (Z.land (zpl_get_ioctl_flags f) FS_APPEND_FL)
  = nonzero (Z.land f ZFS_APPENDONLY).
Proof. six_tests f. Qed.

Lemma ext_nodump f :
  nonzero (Z.land (zpl_get_ioctl_flags f) FS_NODUMP_FL)
  = nonzero (Z.land f ZFS_NODUMP).
Proof. six_tests f. Qed.

Lemma ext_dirsync f :
  nonzero (Z.land (zpl_get_ioctl_flags f) FS_DIRSYNC_FL)
  = nonzero (Z.land f ZFS_DIRSYNC).
Proof. six_tests f. Qed.

Lemma ext_sync f :
  nonzero (Z.land (zpl_get_ioctl_flags f) FS_SYNC_FL)
  = nonzero (Z.land f ZFS_SYNC).
Proof. six_tests f. Qed.

Lemma ext_noatime f :
  nonzero (Z.land (zpl_get_ioctl_flags f) FS_NOATIME_FL)
  = nonzero (Z.land f ZFS_NOATIME).
Proof. six_tests f. Qed.

(** The translation only ever yields bits [zpl_ioctl_setflags] accepts. *)
Lemma ext_modifiable f :
  setflags_not_modifiable (zpl_get_ioctl_flags f) = false.
Proof. unfold setflags_not_modifiable. six_tests f. Qed.

Lemma ext_supported f : setflags_not_supported (zpl_get_ioctl_flags f) = false.
Proof. unfold setflags_not_supported. six_tests f. Qed.

(** C7.  For an internal flag word made of the six recognised bits only,
    the external word [zpl_get_ioctl_flags] yields passes both masks of
    [zpl_ioctl_setflags], and mapping its bits back along the pairing of
    the six flags gives the internal word again. *)
Theorem flags_round_trip (f : Z) :
  ZfsConstsOk C ->
  Z.land f (Z.lnot ZFS_RECOGNIZED) = 0 ->
  let e := zpl_get_ioctl_flags f in
  setflags_not_modifiable e = false /\
  setflags_not_supported e = false /\
  spec_to_internal e = f.
Proof.
  intros Hok Hf e. subst e.
  split; [apply ext_modifiable|]. split; [apply ext_supported|].
  unfold spec_to_internal.
  rewrite ext_immutable, ext_append, ext_nodump, ext_dirsync, ext_sync,
    ext_noatime.
  destruct Hok.
  rewrite !keep_if_set by assumption.
  rewrite <- !Z.land_lor_distr_r.
  apply land_within. exact Hf.
Qed.

End TranslatorFacts.

Lemma sim_consts_ok : ZfsConstsOk Sample.sim_consts.
Proof.
  split; simpl.
  - exists 36. split; [lia | reflexivity].
  - exists 38. split; [lia | reflexivity].
  - exists 39. split; [lia | reflexivity].
  - exists 48. split; [lia | reflexivity].
  - exists 49. split; [lia | reflexivity].
  - exists 50. split; [lia | reflexivity].
Defined.

Lemma flags_round_trip_witness :
  zpl_get_ioctl_flags (C := Sample.sim_consts) 0x0004001000000000
    = Z.lor FS_IMMUTABLE_FL FS_NOATIME_FL /\
  spec_to_internal (C := Sample.sim_consts)
    (zpl_get_ioctl_flags (C := Sample.sim_consts) 0x0004001000000000)
    = 0x0004001000000000.
Proof.
  split; [reflexivity|].
  apply (flags_round_trip (C := Sample.sim_consts) 0x0004001000000000
           sim_consts_ok).
  reflexivity.
Defined.

(** ** The flag ioctls *)
Section Control.
Context {S : Type} {Eng : Engine S} {Hst : Host S} {C : ZfsConsts}.

(** [zpl_ioctl_setflags] always returns: its outcome, test by test. *)
Lemma zpl_ioctl_setflags_eq (w : world S) (filp : file) (arg : N) :
  zpl_ioctl_setflags filp arg w =
    let ans := copy_from_user arg 4 (w_ext w) in
    let flags := to_uint ans.1.2 in
    let w1 := World ans.2 (w_pages w) (w_znodes w)
                (w_trace w ++ [EvCopyFromUser arg 4]) in
    if nonzero (to_int ans.1.1) then Done (to_int ans.1.1) w1
    else if setflags_not_modifiable flags
            || negb (is_owner_or_cap (f_inode filp) ans.2)
    then Done (- EACCES) w1
    else if setflags_not_supported flags then Done (- EOPNOTSUPP) w1
    else
      Done (neg_int (zfs_setattr ans.2).1)
        (World (zfs_setattr ans.2).2 (w_pages w) (w_znodes w)
           (w_trace w ++ [EvCopyFromUser arg 4; EvZfsSetattr])).
Proof.
  unfold zpl_ioctl_setflags. zpl_unfold. simpl.
  destruct (copy_from_user arg 4 (w_ext w)) as [[n word] s1]. simpl.
  destruct (nonzero (to_int n)); [reflexivity|]. simpl.
  destruct (is_owner_or_cap (f_inode filp) s1);
    destruct (setflags_not_modifiable (to_uint word)); simpl;
    try reflexivity.
  destruct (setflags_not_supported (to_uint word)); [reflexivity|]. simpl.
  destruct (zfs_setattr s1) as [r s2]. simpl.
  rewrite <- app_assoc. reflexivity.
Qed.

(** C5.  Once the requested word has been read, [zpl_ioctl_setflags] tests
    permission before support: a caller who is neither owner nor capable
    gets [-EACCES] whatever bits they request, unsupported ones included,
    and never [-EOPNOTSUPP]; a call that returns [-EOPNOTSUPP] has passed
    the permission test, and an owner asking for a modifiable bit outside
    the six gets it. *)
Theorem setflags_permission_before_support (w : world S) (filp : file)
    (arg : N) :
  let ans := copy_from_user arg 4 (w_ext w) in
  let flags := to_uint ans.1.2 in
  let owner := is_owner_or_cap (f_inode filp) ans.2 in
  let w1 := World ans.2 (w_pages w) (w_znodes w)
              (w_trace w ++ [EvCopyFromUser arg 4]) in
  to_int ans.1.1 = 0 ->
  (owner = false ->
     zpl_ioctl_setflags filp arg w = Done (- EACCES) w1 /\
     forall w', zpl_ioctl_setflags filp arg w <> Done (- EOPNOTSUPP) w') /\
  (setflags_not_modifiable flags = true ->
     zpl_ioctl_setflags filp arg w = Done (- EACCES) w1) /\
  (forall w', zpl_ioctl_setflags filp arg w = Done (- EOPNOTSUPP) w' ->
     owner = true /\ setflags_not_modifiable flags = false) /\
  (owner = true -> setflags_not_modifiable flags = false ->
   setflags_not_supported flags = true ->
     zpl_ioctl_setflags filp arg w = Done (- EOPNOTSUPP) w1).
Proof.
  intros ans flags owner w1 Hread.
  rewrite zpl_ioctl_setflags_eq. cbv zeta.
  fold ans. fold flags. fold owner. fold w1.
  apply nonzero_false in Hread. rewrite Hread.
  split; [|split; [|split]].
  - intros ->. rewrite orb_true_r. split; [reflexivity|].
    intros w'. discriminate.
  - intros ->. reflexivity.
  - intros w' H. destruct owner, (setflags_not_modifiable flags);
      simpl in H; try discriminate. split; reflexivity.
  - intros -> -> ->. reflexivity.
Qed.

(** C6 (what the code does).  A request that passes both tests reaches
    [zfs_setattr], which is called without arguments: the engine is handed
    neither the inode nor a flag word, and what it does and returns is a
    function of its own state alone.  The call returns its negated
    status. *)
Theorem setflags_passes_no_flags (w : world S) (filp : file) (arg : N) :
  let ans := copy_from_user arg 4 (w_ext w) in
  let flags := to_uint ans.1.2 in
  to_int ans.1.1 = 0 ->
  is_owner_or_cap (f_inode filp) ans.2 = true ->
  setflags_not_modifiable flags = false ->
  setflags_not_supported flags = false ->
  zpl_ioctl_setflags filp arg w
  = Done (neg_int (zfs_setattr ans.2).1)
      (World (zfs_setattr ans.2).2 (w_pages w) (w_znodes w)
         (w_trace w ++ [EvCopyFromUser arg 4; EvZfsSetattr])).
Proof.
  intros ans flags Hread Howner Hmod Hsup.
  rewrite zpl_ioctl_setflags_eq. cbv zeta. fold ans. fold flags.
  apply nonzero_false in Hread. rewrite Hread, Hmod, Howner, Hsup.
  reflexivity.
Qed.

(** C9.  [zpl_ioctl] hands [ZFS_IOC_GETFLAGS] to [zpl_ioctl_getflags] and
    [ZFS_IOC_SETFLAGS] to [zpl_ioctl_setflags]; for any other command it
    returns [-ENOTTY] and does nothing. *)
Theorem ioctl_dispatch (filp : file) (cmd : Z) (arg : N) :
  ZFS_IOC_GETFLAGS <> ZFS_IOC_SETFLAGS ->
  (cmd = ZFS_IOC_GETFLAGS ->
     zpl_ioctl filp cmd arg = zpl_ioctl_getflags filp arg) /\
  (cmd = ZFS_IOC_SETFLAGS ->
     zpl_ioctl filp cmd arg = zpl_ioctl_setflags filp arg) /\
  (cmd <> ZFS_IOC_GETFLAGS -> cmd <> ZFS_IOC_SETFLAGS ->
     forall w : world S, zpl_ioctl filp cmd arg w = Done (- ENOTTY) w).
Proof.
  intros Hne. unfold zpl_ioctl. repeat split.
  - intros ->. rewrite Z.eqb_refl. reflexivity.
  - intros ->. rewrite (proj2 (Z.eqb_neq _ _)) by congruence.
    rewrite Z.eqb_refl. reflexivity.
  - intros H1 H2 w. rewrite !(proj2 (Z.eqb_neq _ _)) by assumption.
    reflexivity.
Qed.

(** C10.  [zpl_ioctl_getflags] returns a positive engine errno negated,
    without attempting the copy; when the engine succeeds it returns what
    [copy_to_user] returned, the number of bytes left uncopied: a positive
    number when the copy failed, zero when it succeeded. *)
Theorem getflags_copy_failure_positive (w : world S) (filp : file) (arg : N) :
  let ip := f_inode filp in
  let g := zfs_getflags ip (w_ext w) in
  let word := zpl_get_ioctl_flags (wrap_u 64 g.1.2) in
  let c := copy_to_user arg word 4 g.2 in
  (0 < g.1.1 <= INT_MAX ->
     zpl_ioctl_getflags filp arg w
     = Done (- g.1.1)
         (World g.2 (w_pages w) (w_znodes w) (w_trace w ++ [EvZfsGetflags ip]))
     /\ - g.1.1 < 0) /\
  (g.1.1 = 0 -> 0 < c.1 <= 4 ->
     zpl_ioctl_getflags filp arg w
     = Done c.1
         (World c.2 (w_pages w) (w_znodes w)
            (w_trace w ++ [EvZfsGetflags ip; EvCopyToUser arg word 4]))
     /\ 0 < c.1) /\
  (g.1.1 = 0 -> c.1 = 0 ->
     zpl_ioctl_getflags filp arg w
     = Done 0
         (World c.2 (w_pages w) (w_znodes w)
            (w_trace w ++ [EvZfsGetflags ip; EvCopyToUser arg word 4]))).
Proof.
  intros ip g word c. subst c word g.
  unfold zpl_ioctl_getflags. zpl_unfold. simpl. fold ip.
  destruct (zfs_getflags ip (w_ext w)) as [[r zf] s1]. simpl.
  split; [|split].
  - intros Hr. destruct (neg_int_pos r Hr) as [E Hneg]. rewrite E.
    rewrite (proj2 (nonzero_true (- r))) by lia. split; [reflexivity | lia].
  - intros -> Hn. change (nonzero (neg_int 0)) with false. cbv iota. simpl.
    destruct (copy_to_user arg (zpl_get_ioctl_flags (wrap_u 64 zf)) 4 s1)
      as [n s2]. simpl in *.
    rewrite to_int_id by (unfold INT_MIN, INT_MAX; lia).
    rewrite <- app_assoc. split; [reflexivity | lia].
  - intros -> Hn. change (nonzero (neg_int 0)) with false. cbv iota. simpl.
    destruct (copy_to_user arg (zpl_get_ioctl_flags (wrap_u 64 zf)) 4 s1)
      as [n s2]. simpl in *. subst n.
    rewrite <- app_assoc. reflexivity.
Qed.

End Control.

Lemma setflags_permission_before_support_witness :
  zpl_ioctl_setflags Sample.file0 0x2000
    (Sample.world0 (Sample.with_request false 1 Sample.sim0))
  = Done (-13)
      (World (Sample.with_request false 1 Sample.sim0)
         (w_pages (Sample.world0 Sample.sim0))
         (w_znodes (Sample.world0 Sample.sim0))
         [EvCopyFromUser 0x2000 4])
  /\
  zpl_ioctl_setflags Sample.file0 0x2000
    (Sample.world0 (Sample.with_request true 1 Sample.sim0))
  = Done (-95)
      (World (Sample.with_request true 1 Sample.sim0)
         (w_pages (Sample.world0 Sample.sim0))
         (w_znodes (Sample.world0 Sample.sim0))
         [EvCopyFromUser 0x2000 4]).
Proof.
  split.
  - pose proof (setflags_permission_before_support
                  (Sample.world0 (Sample.with_request false 1 Sample.sim0))
                  Sample.file0 0x2000) as H.
    cbv zeta in H. destruct (H eq_refl) as (H1 & _).
    exact (proj1 (H1 eq_refl)).
  - pose proof (setflags_permission_before_support
                  (Sample.world0 (Sample.with_request true 1 Sample.sim0))
                  Sample.file0 0x2000) as H.
    cbv zeta in H. destruct (H eq_refl) as (_ & _ & _ & H4).
    exact (H4 eq_refl eq_refl eq_refl).
Defined.

Lemma setflags_passes_no_flags_witness :
  zpl_ioctl_setflags Sample.file0 0x2000
    (Sample.world0 (Sample.with_request true FS_IMMUTABLE_FL Sample.sim0))
  = Done 0
      (World (Sample.with_request true FS_IMMUTABLE_FL Sample.sim0)
         (w_pages (Sample.world0 Sample.sim0))
         (w_znodes (Sample.world0 Sample.sim0))
         [EvCopyFromUser 0x2000 4; EvZfsSetattr]).
Proof.
  pose proof (setflags_passes_no_flags
                (Sample.world0 (Sample.with_request true FS_IMMUTABLE_FL Sample.sim0))
                Sample.file0 0x2000) as H.
  cbv zeta in H. exact (H eq_refl eq_refl eq_refl eq_refl).
Defined.

Lemma ioctl_dispatch_witness :
  zpl_ioctl (C := Sample.sim_consts) Sample.file0 0x5401 0x2000
    (Sample.world0 Sample.sim0)
  = Done (-25) (Sample.world0 Sample.sim0)
  /\
  zpl_ioctl (C := Sample.sim_consts) Sample.file0 0x80086601 0x2000
  = zpl_ioctl_getflags (S := Sample.sim) Sample.file0 0x2000.
Proof.
  destruct (ioctl_dispatch (S := Sample.sim) (C := Sample.sim_consts)
              Sample.file0 0x5401 0x2000) as (_ & _ & H3).
  { vm_compute. discriminate. }
  destruct (ioctl_dispatch (S := Sample.sim) (C := Sample.sim_consts)
              Sample.file0 0x80086601 0x2000) as (H1 & _).
  { vm_compute. discriminate. }
  split.
  - apply H3; vm_compute; discriminate.
  - apply H1. reflexivity.
Defined.

Lemma getflags_copy_failure_positive_witness :
  zpl_ioctl_getflags (C := Sample.sim_consts) Sample.file0 0x2000
    (Sample.world0 (Sample.with_left 4 Sample.sim0))
  = Done 4
      (World (Sample.with_left 4 Sample.sim0)
         (w_pages (Sample.world0 Sample.sim0))
         (w_znodes (Sample.world0 Sample.sim0))
         [EvZfsGetflags 7; EvCopyToUser 0x2000 0 4])
  /\
  zpl_ioctl_getflags (C := Sample.sim_consts) Sample.file0 0x2000
    (Sample.world0 (Sample.with_errno 5 Sample.sim0))
  = Done (-5)
      (World (Sample.with_errno 5 Sample.sim0)
         (w_pages (Sample.world0 Sample.sim0))
         (w_znodes (Sample.world0 Sample.sim0))
         [EvZfsGetflags 7]).
Proof.
  split.
  - pose proof (getflags_copy_failure_positive (C := Sample.sim_consts)
                  (Sample.world0 (Sample.with_left 4 Sample.sim0))
                  Sample.file0 0x2000) as H.
    cbv zeta in H. destruct H as (_ & H & _).
    refine (proj1 (H eq_refl _)). vm_compute. intuition discriminate.
  - pose proof (getflags_copy_failure_positive (C := Sample.sim_consts)
                  (Sample.world0 (Sample.with_errno 5 Sample.sim0))
                  Sample.file0 0x2000) as H.
    cbv zeta in H. destruct H as (H & _).
    refine (proj1 (H _)). vm_compute. intuition discriminate.
Defined.

(** * Further properties *)

(** ** The status wrappers: open, release, fsync, readdir *)
Section Wrappers.
Context {S : Type} {Eng : Engine S} {Hst : Host S}.

(** The negation and the assertion of lines 39-41, 56-58, 71-74, 104-106. *)
Lemma neg_int_leb (r : Z) :
  - INT_MAX <= r <= INT_MAX ->
  neg_int r = - r /\ ((neg_int r <=? 0) = (0 <=? r)) /\
  (nonzero (neg_int r) = nonzero r).
Proof.
  intros Hr. rewrite neg_int_opp by (unfold INT_MIN, INT_MAX in *; lia).
  split; [reflexivity|]. split.
  - destruct (Z.leb_spec (- r) 0), (Z.leb_spec 0 r); lia || reflexivity.
  - unfold nonzero. destruct (Z.eqb_spec (- r) 0), (Z.eqb_spec r 0);
      lia || reflexivity.
Qed.

(** X1.  [zpl_open] drops the credential before anything else happens and
    reaches [generic_file_open] only when the engine opened the file: a
    positive errno is returned negated with the generic open never called.
    A negative engine status is a panic in a build with assertions and is
    returned as a positive value in a build without. *)
Theorem open_reaches_generic_open_only_on_success (w : world S) (ip : N)
    (filp : file) :
  let cr := CRED (w_ext w) in
  let o := zfs_open ip (f_mode filp) (f_flags filp) cr (w_ext w) in
  let h := generic_file_open ip filp o.2 in
  let head := [EvCrhold cr; EvZfsOpen ip (f_mode filp) (f_flags filp);
               EvCrfree cr] in
  (0 < o.1 <= INT_MAX ->
     zpl_open ip filp w
     = Done (- o.1) (World o.2 (w_pages w) (w_znodes w) (w_trace w ++ head))) /\
  (o.1 = 0 ->
     zpl_open ip filp w
     = Done (to_int h.1)
         (World h.2 (w_pages w) (w_znodes w)
            (w_trace w ++ head ++ [EvGenericFileOpen ip]))) /\
  (- INT_MAX <= o.1 < 0 ->
     zpl_open ip filp w
     = if NDEBUG then
         Done (- o.1) (World o.2 (w_pages w) (w_znodes w) (w_trace w ++ head))
       else Fault AssertFailed).
Proof.
  intros cr o h head. subst h o head.
  unfold zpl_open. zpl_unfold. simpl. fold cr.
  destruct (zfs_open ip (f_mode filp) (f_flags filp) cr (w_ext w))
    as [r s1]. simpl.
  split; [|split].
  - intros Hr. destruct (neg_int_leb r ltac:(lia)) as (E1 & E2 & E3).
    rewrite E2, E3, E1.
    rewrite (proj2 (Z.leb_le 0 r)) by lia. rewrite orb_true_r.
    rewrite (proj2 (nonzero_true r)) by lia.
    rewrite <- !app_assoc. reflexivity.
  - intros ->. change (neg_int 0) with 0. simpl. rewrite orb_true_r. simpl.
    destruct (generic_file_open ip filp s1) as [hr s2]. simpl.
    rewrite <- !app_assoc. reflexivity.
  - intros Hr. destruct (neg_int_leb r ltac:(lia)) as (E1 & E2 & E3).
    rewrite E2, E3, E1.
    rewrite (proj2 (Z.leb_gt 0 r)) by lia. rewrite orb_false_r.
    rewrite (proj2 (nonzero_true r)) by lia.
    destruct NDEBUG; [|reflexivity].
    rewrite <- !app_assoc. reflexivity.
Qed.

(** The outcome of a wrapper of the shape of lines 52-60. *)
Lemma status_wrapper_run {A} (w : world S) (ev : event) (mk : Z -> A)
    (r : Z) (s1 : S) :
  status_contract w ev (r, s1) mk
    (if NDEBUG || (neg_int r <=? 0)
     then Done (mk (neg_int r))
            (World s1 (w_pages w) (w_znodes w)
               (w_trace w ++ [EvCrhold (CRED (w_ext w)); ev;
                              EvCrfree (CRED (w_ext w))]))
     else Fault AssertFailed).
Proof.
  unfold status_contract. simpl. split; intros Hr.
  - destruct (neg_int_leb r ltac:(lia)) as (E1 & E2 & _).
    rewrite E2, E1. rewrite (proj2 (Z.leb_le 0 r)) by lia.
    rewrite orb_true_r. reflexivity.
  - destruct (neg_int_leb r ltac:(lia)) as (E1 & E2 & _).
    rewrite E2, E1. rewrite (proj2 (Z.leb_gt 0 r)) by lia.
    rewrite orb_false_r. reflexivity.
Qed.

(** X2.  [zpl_release], [zpl_fsync] and [zpl_readdir] hold the credential
    across one engine call and return the engine's status negated
    ([zpl_readdir] next to the position the engine left, also when the
    engine failed).  A negative engine status is a panic in a build with
    assertions and comes back positive in a build without. *)
Theorem status_wrappers_negate (w : world S) (ip dirent filldir : N)
    (filp : file) (datasync f_pos : Z) :
  let cr := CRED (w_ext w) in
  status_contract w (EvZfsClose ip (f_flags filp))
    (zfs_close ip (f_flags filp) cr (w_ext w)) id
    (zpl_release ip filp w) /\
  status_contract w (EvZfsFsync (f_inode filp) datasync)
    (zfs_fsync (f_inode filp) datasync cr (w_ext w)) id
    (zpl_fsync filp datasync w) /\
  (let d := zfs_readdir (f_inode filp) dirent filldir f_pos cr (w_ext w) in
   status_contract w (EvZfsReaddir (f_inode filp) dirent filldir f_pos)
     (d.1.1, d.2) (fun e => (e, d.1.2))
     (zpl_readdir filp dirent filldir f_pos w)).
Proof.
  intros cr. split; [|split].
  - destruct (zfs_close ip (f_flags filp) cr (w_ext w)) as [r s1] eqn:E.
    replace (zpl_release ip filp w) with
      (if NDEBUG || (neg_int r <=? 0)
       then Done (S:=S) (id (neg_int r))
              (World s1 (w_pages w) (w_znodes w)
                 (w_trace w ++ [EvCrhold (CRED (w_ext w));
                                EvZfsClose ip (f_flags filp);
                                EvCrfree (CRED (w_ext w))]))
       else Fault AssertFailed); [apply status_wrapper_run|].
    unfold zpl_release. zpl_unfold. simpl. fold cr. rewrite E. simpl.
    destruct (NDEBUG || (neg_int r <=? 0)); [|reflexivity].
    rewrite <- !app_assoc. reflexivity.
  - destruct (zfs_fsync (f_inode filp) datasync cr (w_ext w)) as [r s1] eqn:E.
    replace (zpl_fsync filp datasync w) with
      (if NDEBUG || (neg_int r <=? 0)
       then Done (S:=S) (id (neg_int r))
              (World s1 (w_pages w) (w_znodes w)
                 (w_trace w ++ [EvCrhold (CRED (w_ext w));
                                EvZfsFsync (f_inode filp) datasync;
                                EvCrfree (CRED (w_ext w))]))
       else Fault AssertFailed); [apply status_wrapper_run|].
    unfold zpl_fsync. zpl_unfold. simpl. fold cr. rewrite E. simpl.
    destruct (NDEBUG || (neg_int r <=? 0)); [|reflexivity].
    rewrite <- !app_assoc. reflexivity.
  - destruct (zfs_readdir (f_inode filp) dirent filldir f_pos cr (w_ext w))
      as [[r pos'] s1] eqn:E. simpl.
    replace (zpl_readdir filp dirent filldir f_pos w) with
      (if NDEBUG || (neg_int r <=? 0)
       then Done (S:=S) ((fun e => (e, pos')) (neg_int r))
              (World s1 (w_pages w) (w_znodes w)
                 (w_trace w ++ [EvCrhold (CRED (w_ext w));
                                EvZfsReaddir (f_inode filp) dirent filldir f_pos;
                                EvCrfree (CRED (w_ext w))]))
       else Fault AssertFailed); [apply status_wrapper_run|].
    unfold zpl_readdir. zpl_unfold. simpl. fold cr. rewrite E. simpl.
    destruct (NDEBUG || (neg_int r <=? 0)); [|reflexivity].
    rewrite <- !app_assoc. reflexivity.
Qed.

End Wrappers.

(** ** Balances of events *)
Section Net.
Context {S : Type} {Hst : Host S}.
Variables hold free : event -> bool.

Lemma net_of_app (tr1 tr2 : list event) :
  net_of hold free (tr1 ++ tr2) = net_of hold free tr1 + net_of hold free tr2.
Proof.
  unfold net_of, count_ev. rewrite !List.filter_app, !length_app. lia.
Qed.

Lemma net_of_single (e : event) : net_of hold free [e] = ev_delta hold free e.
Proof.
  unfold net_of, count_ev, ev_delta. simpl.
  destruct (hold e), (free e); reflexivity.
Qed.

Lemma net_ret {A} (a : A) : respects_net hold free 0 (mret a : M S A).
Proof.
  intros w a' w' H. inversion H; subst. exists [].
  rewrite app_nil_r. split; reflexivity.
Qed.

Lemma net_bind {A B} (m : M S A) (k : A -> M S B) (d d1 d2 : Z) :
  respects_net hold free d1 m ->
  (forall a, respects_net hold free d2 (k a)) ->
  d = d1 + d2 ->
  respects_net hold free d (m ≫= k).
Proof.
  intros Hm Hk -> w b w2 H.
  apply bind_inv in H as (a & w1 & H1 & H2).
  destruct (Hm _ _ _ H1) as (tr1 & E1 & N1).
  destruct (Hk a _ _ _ H2) as (tr2 & E2 & N2).
  exists (tr1 ++ tr2). rewrite E2, E1, app_assoc, net_of_app.
  split; [reflexivity | lia].
Qed.

Lemma net_weaken {A} (m : M S A) (d d' : Z) :
  respects_net hold free d' m -> d' = d -> respects_net hold free d m.
Proof. intros H <-. exact H. Qed.

(** The same, reading the balance left for the continuation off the
    balance of the whole. *)
Lemma net_bind_down {A B} (m : M S A) (k : A -> M S B) (d d1 : Z) :
  respects_net hold free d1 m ->
  (forall a, respects_net hold free (d - d1) (k a)) ->
  respects_net hold free d (m ≫= k).
Proof. intros Hm Hk. eapply net_bind; [exact Hm | exact Hk | lia]. Qed.

Lemma net_emit (e : event) :
  respects_net hold free (ev_delta hold free e) (emit e : M S unit).
Proof.
  intros w a w' H. inversion H; subst. exists [e].
  split; [reflexivity | apply net_of_single].
Qed.

Lemma net_call {A} (f : S -> A * S) : respects_net hold free 0 (call f).
Proof.
  intros w a w' H. unfold call in H. destruct (f (w_ext w)).
  inversion H; subst. exists []. simpl. rewrite app_nil_r.
  split; reflexivity.
Qed.

Lemma net_query {A} (f : S -> A) : respects_net hold free 0 (query f).
Proof.
  intros w a w' H. inversion H; subst. exists [].
  rewrite app_nil_r. split; reflexivity.
Qed.

Lemma net_fail {A} (f : fault) (d : Z) :
  respects_net hold free d (fail f : M S A).
Proof. intros w a w' H. discriminate. Qed.

Lemma net_ASSERT (c : bool) : respects_net hold free 0 (ASSERT c).
Proof.
  unfold ASSERT. destruct (NDEBUG || c); [apply net_ret | apply net_fail].
Qed.

Lemma net_page_get {A} (f : page -> A) (pp : N) :
  respects_net hold free 0 (page_get f pp : M S A).
Proof.
  intros w a w' H. unfold page_get in H.
  destruct (w_pages w !! pp); inversion H; subst. exists [].
  rewrite app_nil_r. split; reflexivity.
Qed.

Lemma net_page_do (op : page_op) (f : page -> page) (pp : N) :
  respects_net hold free (ev_delta hold free (EvPage op pp))
    (page_do op f pp : M S unit).
Proof.
  intros w a w' H. unfold page_do in H.
  destruct (w_pages w !! pp); inversion H; subst. exists [EvPage op pp].
  split; [reflexivity | apply net_of_single].
Qed.

Lemma net_mutex_enter (ip : N) :
  respects_net hold free (ev_delta hold free (EvMutexEnter ip))
    (mutex_enter ip : M S unit).
Proof.
  intros w a w' H. unfold mutex_enter in H.
  destruct (w_znodes w !! ip) as [zp|]; [|discriminate].
  destruct (z_lock zp); inversion H; subst. exists [EvMutexEnter ip].
  split; [reflexivity | apply net_of_single].
Qed.

Lemma net_mutex_exit (ip : N) :
  respects_net hold free (ev_delta hold free (EvMutexExit ip))
    (mutex_exit ip : M S unit).
Proof.
  intros w a w' H. unfold mutex_exit in H.
  destruct (w_znodes w !! ip) as [zp|]; inversion H; subst.
  exists [EvMutexExit ip]. split; [reflexivity | apply net_of_single].
Qed.

Lemma net_store_z_is_mapped (ip : N) (v : Z) :
  respects_net hold free (ev_delta hold free (EvStoreIsMapped ip v))
    (store_z_is_mapped ip v : M S unit).
Proof.
  intros w a w' H. unfold store_z_is_mapped in H.
  destruct (w_znodes w !! ip) as [zp|]; inversion H; subst.
  exists [EvStoreIsMapped ip v]. split; [reflexivity | apply net_of_single].
Qed.

End Net.

(** Adds up the balance of a body made of binds, conditionals and
    primitives; [leaf] closes what is none of them, [arith] the sums. *)
Ltac net_leaf leaf :=
  first
    [ apply net_ret | apply net_emit | apply net_call | apply net_query
    | apply net_fail | apply net_ASSERT | apply net_page_do
    | apply net_page_get | apply net_mutex_enter | apply net_mutex_exit
    | apply net_store_z_is_mapped | leaf ].

Ltac net_walk leaf arith :=
  cbv zeta;
  lazymatch goal with
  | |- respects_net _ _ ?d (_ ≫= _) =>
      tryif is_evar d
      then (eapply net_bind;
            [ net_walk leaf arith | intros ?; net_walk leaf arith | arith ])
      else (eapply net_bind_down;
            [ net_walk leaf arith | intros ?; net_walk leaf arith ])
  | |- respects_net _ _ _ (if ?b then _ else _) =>
      destruct b; net_walk leaf arith
  | |- respects_net _ _ _ (match ?x with _ => _ end) =>
      destruct x; net_walk leaf arith
  | |- respects_net _ _ ?d _ =>
      tryif is_evar d
      then (eapply net_weaken;
            [ net_leaf leaf | unfold ev_delta; cbn; reflexivity ])
      else first
             [ net_leaf leaf | eapply net_weaken; [ net_leaf leaf | arith ] ]
  end.

(** ** Frames *)
Section Frames.
Context {S : Type} {Hst : Host S}.
Context (R : world S -> world S -> Prop) {HR : FrameRel R}.

Lemma respects_ret {A} (a : A) : respects R (mret a : M S A).
Proof. intros w a' w' H. inversion H; subst. apply frame_refl. Qed.

Lemma respects_bind {A B} (m : M S A) (k : A -> M S B) :
  respects R m -> (forall a, respects R (k a)) -> respects R (m ≫= k).
Proof.
  intros Hm Hk w b w2 H. apply bind_inv in H as (a & w1 & H1 & H2).
  eapply frame_trans; [eapply Hm | eapply Hk]; eassumption.
Qed.

Lemma respects_emit (e : event) : respects R (emit e : M S unit).
Proof. intros w a w' H. inversion H; subst. apply frame_ext. Qed.

Lemma respects_call {A} (f : S -> A * S) : respects R (call f).
Proof.
  intros w a w' H. unfold call in H. destruct (f (w_ext w)).
  inversion H; subst. apply frame_ext.
Qed.

Lemma respects_query {A} (f : S -> A) : respects R (query f).
Proof. intros w a w' H. inversion H; subst. apply frame_refl. Qed.

Lemma respects_fail {A} (f : fault) : respects R (fail f : M S A).
Proof. intros w a w' H. discriminate. Qed.

Lemma respects_ASSERT (c : bool) : respects R (ASSERT c).
Proof.
  unfold ASSERT. destruct (NDEBUG || c);
    [apply respects_ret | apply respects_fail].
Qed.

Lemma respects_page_get {A} (f : page -> A) (pp : N) :
  respects R (page_get f pp : M S A).
Proof.
  intros w a w' H. unfold page_get in H.
  destruct (w_pages w !! pp); inversion H; subst. apply frame_refl.
Qed.

End Frames.

(** Walks a body for a frame; [leaf] closes what is no bind, conditional
    or trace-only primitive. *)
Ltac frame_walk leaf :=
  repeat first
    [ progress cbv zeta
    | match goal with |- FrameRel _ => typeclasses eauto end
    | apply respects_ret | apply respects_emit | apply respects_call
    | apply respects_query | apply respects_fail | apply respects_ASSERT
    | apply respects_page_get | leaf
    | refine (respects_bind _ _ _ _ (fun _ => _))
    | match goal with
      | |- respects _ (if ?b then _ else _) => destruct b
      | |- respects _ (match ?x with _ => _ end) => destruct x
      end ].

(** ** Credentials *)
Section Credentials.
Context {S : Type} {Eng : Engine S} {Hst : Host S} {C : ZfsConsts}.

Lemma cred_readpages_loop (ps : list N) :
  forall pages,
    respects_net is_crhold is_crfree 0 (readpages_loop (S:=S) ps pages).
Proof.
  induction ps as [|p ps IH]; intros pages; simpl; [apply net_ret|].
  unfold list_del.
  net_walk ltac:(apply IH) ltac:(reflexivity).
Qed.

Lemma cred_write_cache_pages_walk (ps : list N) (wbc data : N) :
  respects_net is_crhold is_crfree 0
    (write_cache_pages_walk ps wbc zpl_putpage data).
Proof.
  induction ps as [|p ps IH]; simpl; [apply net_ret|].
  unfold zpl_putpage.
  net_walk ltac:(apply IH) ltac:(reflexivity).
Qed.

Lemma cred_zpl_readdir filp dirent filldir f_pos :
  respects_net is_crhold is_crfree 0 (zpl_readdir filp dirent filldir f_pos).
Proof. unfold zpl_readdir. net_walk ltac:(fail) ltac:(reflexivity). Qed.

Lemma cred_zpl_read filp buf len ppos :
  respects_net is_crhold is_crfree 0 (zpl_read filp buf len ppos).
Proof.
  unfold zpl_read, zpl_read_common. net_walk ltac:(fail) ltac:(reflexivity).
Qed.

Lemma cred_zpl_write filp buf len ppos :
  respects_net is_crhold is_crfree 0 (zpl_write filp buf len ppos).
Proof.
  unfold zpl_write, zpl_write_common. net_walk ltac:(fail) ltac:(reflexivity).
Qed.

Lemma cred_zpl_readpages ip pages nr_pages :
  respects_net is_crhold is_crfree 0 (zpl_readpages ip pages nr_pages).
Proof.
  unfold zpl_readpages, pages_vector_from_list.
  net_walk ltac:(apply cred_readpages_loop) ltac:(reflexivity).
Qed.

Lemma cred_run_op (op : zpl_op) :
  respects_net is_crhold is_crfree 0 (run_op op).
Proof.
  destruct op; simpl;
    unfold zpl_open, zpl_release, zpl_fsync, zpl_mmap, zpl_readpage,
      zpl_writepage, zpl_putpage, zpl_writepages, write_cache_pages,
      zpl_ioctl, zpl_ioctl_getflags, zpl_ioctl_setflags;
    net_walk
      ltac:(first [ apply cred_zpl_readdir | apply cred_zpl_read
                  | apply cred_zpl_write | apply cred_zpl_readpages
                  | apply cred_write_cache_pages_walk ])
      ltac:(reflexivity).
Qed.

(** X3.  Whenever an entry point returns, it has dropped every reference
    it took on the credential: its trace holds as many [crfree] as
    [crhold], on the success and on every error path. *)
Theorem credentials_balanced (op : zpl_op) (w : world S) (r : Z)
    (w' : world S) :
  run_op op w = Done r w' ->
  exists tr,
    w_trace w' = w_trace w ++ tr /\
    count_ev is_crhold tr = count_ev is_crfree tr.
Proof.
  intros H. destruct (cred_run_op op w r w' H) as (tr & E & Hn).
  exists tr. split; [exact E|]. unfold net_of in Hn. lia.
Qed.

End Credentials.

Lemma credentials_balanced_witness :
  exists r w' tr,
    run_op (C := Sample.sim_consts) (OpRead Sample.file0 0x1000 4096 4000)
      (Sample.world0 Sample.sim0) = Done r w' /\
    w_trace w' = tr /\
    count_ev is_crhold tr = 1%nat /\ count_ev is_crfree tr = 1%nat.
Proof.
  destruct (run_op (C := Sample.sim_consts)
              (OpRead Sample.file0 0x1000 4096 4000)
              (Sample.world0 Sample.sim0)) as [r w'|f] eqn:E;
    [|vm_compute in E; discriminate].
  destruct (credentials_balanced _ _ _ _ E) as (tr & Etr & Hbal).
  exists r, w', tr. split; [reflexivity|]. split; [exact Etr|].
  assert (Hc : count_ev is_crhold (w_trace w') = 1%nat).
  { vm_compute in E. inversion E; subst. reflexivity. }
  rewrite Etr in Hc. simpl in Hc. split; [exact Hc | congruence].
Defined.

(** ** What the entry points leave alone *)
Section Untouched.
Context {S : Type} {Eng : Engine S} {Hst : Host S} {C : ZfsConsts}.

Global Instance same_znodes_frame : FrameRel (same_znodes (S:=S)).
Proof.
  split; unfold same_znodes.
  - reflexivity.
  - intros w1 w2 w3 H1 H2. congruence.
  - reflexivity.
Qed.

Global Instance same_locks_frame : FrameRel (same_locks (S:=S)).
Proof.
  split; unfold same_locks.
  - intros w ip zp H. eauto.
  - intros w1 w2 w3 H1 H2 ip zp H.
    destruct (H1 _ _ H) as (zp2 & E2 & L2).
    destruct (H2 _ _ E2) as (zp3 & E3 & L3).
    exists zp3. split; [exact E3 | congruence].
  - intros w s tr ip zp H. simpl. eauto.
Qed.

Lemma count_ev_never (tr : list event) : count_ev (fun _ => false) tr = 0%nat.
Proof. induction tr as [|e tr IH]; [reflexivity | exact IH]. Qed.

(** A page primitive leaves the znodes alone. *)
Lemma znodes_page_do op f pp :
  respects same_znodes (page_do op f pp : M S unit).
Proof.
  intros w a w' H. unfold page_do in H.
  destruct (w_pages w !! pp); inversion H; subst. reflexivity.
Qed.

Lemma znodes_readpages_loop (ps : list N) :
  forall pages, respects same_znodes (readpages_loop (S:=S) ps pages).
Proof.
  induction ps as [|p ps IH]; intros pages; simpl;
    [apply respects_ret; typeclasses eauto|].
  unfold list_del.
  frame_walk ltac:(first [apply znodes_page_do | apply IH]).
Qed.

Lemma znodes_write_cache_pages_walk (ps : list N) (wbc data : N) :
  respects same_znodes (write_cache_pages_walk ps wbc zpl_putpage data).
Proof.
  induction ps as [|p ps IH]; simpl;
    [apply respects_ret; typeclasses eauto|].
  unfold zpl_putpage.
  frame_walk ltac:(first [apply znodes_page_do | apply IH]).
Qed.

(** Lines 256-258: the mutex is taken free and left free. *)
Lemma locks_mapped_store (ip : N) (v e : Z) :
  respects same_locks
    (mutex_enter ip ;; store_z_is_mapped ip v ;; mutex_exit ip ;;
     (mret e : M S Z)).
Proof.
  intros w a w' H.
  unfold mutex_enter, store_z_is_mapped, mutex_exit, mbind, M_bind,
    mret, M_ret in H.
  destruct (w_znodes w !! ip) as [zp|] eqn:Ezp; [|discriminate].
  destruct (z_lock zp) eqn:El; [discriminate|]. simpl in H.
  rewrite lookup_insert_eq in H. simpl in H.
  rewrite lookup_insert_eq in H. simpl in H.
  inversion H; subst. clear H.
  intros ip0 zp0 H0. simpl.
  destruct (decide (ip = ip0)) as [->|Hne].
  - rewrite lookup_insert_eq. eexists. split; [reflexivity|]. simpl.
    congruence.
  - rewrite !lookup_insert_ne by exact Hne. eauto.
Qed.

Lemma same_znodes_locks (w w' : world S) : same_znodes w w' -> same_locks w w'.
Proof. intros H ip zp E. rewrite H. eauto. Qed.

(** The entry points outside the page cache issue no page primitive. *)
Lemma no_page_ev_run_op (op : zpl_op) :
  is_page_cache_op op = false ->
  respects_net is_any_page_ev (fun _ => false) 0 (run_op op).
Proof.
  destruct op; simpl; try discriminate; intros _;
    unfold zpl_open, zpl_release, zpl_readdir, zpl_fsync, zpl_read,
      zpl_read_common, zpl_write, zpl_write_common, zpl_mmap,
      zpl_ioctl, zpl_ioctl_getflags, zpl_ioctl_setflags;
    net_walk ltac:(fail) ltac:(reflexivity).
Qed.

Lemma znodes_run_op (op : zpl_op) :
  is_mmap_op op = false -> respects same_znodes (run_op op).
Proof.
  destruct op; simpl; try discriminate; intros _;
    unfold zpl_open, zpl_release, zpl_readdir, zpl_fsync, zpl_read,
      zpl_read_common, zpl_write, zpl_write_common, zpl_readpages,
      pages_vector_from_list, zpl_readpage, zpl_writepage, zpl_putpage,
      zpl_writepages, write_cache_pages,
      zpl_ioctl, zpl_ioctl_getflags, zpl_ioctl_setflags;
    frame_walk
      ltac:(first [ apply znodes_page_do | apply znodes_readpages_loop
                  | apply znodes_write_cache_pages_walk ]).
Qed.

Lemma locks_zpl_mmap filp vma : respects same_locks (zpl_mmap filp vma).
Proof.
  unfold zpl_mmap. frame_walk ltac:(apply locks_mapped_store).
Qed.

(** X4.  The entry points of [zpl_file_operations] (open, release, readdir,
    fsync, read, write, mmap, ioctl) issue no page primitive themselves:
    whenever one of them returns, its trace holds none.  In this file the
    page primitives are called by the four address-space operations only.
    (What the engine does to the page cache inside a call is the engine's
    and is not stated here.) *)
Theorem file_operations_issue_no_page_primitive (op : zpl_op) (w : world S)
    (r : Z) (w' : world S) :
  is_page_cache_op op = false ->
  run_op op w = Done r w' ->
  exists tr, w_trace w' = w_trace w ++ tr /\ count_ev is_any_page_ev tr = 0%nat.
Proof.
  intros Hop H.
  destruct (no_page_ev_run_op op Hop w r w' H) as (tr & E & Hn).
  exists tr. split; [exact E|]. unfold net_of in Hn.
  rewrite count_ev_never in Hn. lia.
Qed.

(** X5.  No entry point other than [zpl_mmap] writes to a znode, and no
    entry point at all returns with a znode's mutex in another state than
    it found it: [zpl_mmap] releases the [z_lock] it takes. *)
Theorem znodes_written_by_mmap_only (op : zpl_op) (w : world S) (r : Z)
    (w' : world S) :
  run_op op w = Done r w' ->
  (is_mmap_op op = false -> w_znodes w' = w_znodes w) /\
  (forall ip zp, w_znodes w !! ip = Some zp ->
     exists zp', w_znodes w' !! ip = Some zp' /\ z_lock zp' = z_lock zp).
Proof.
  intros H. split.
  - intros Hop. exact (znodes_run_op op Hop w r w' H).
  - destruct (is_mmap_op op) eqn:Hop.
    + destruct op; try discriminate. simpl in H.
      exact (locks_zpl_mmap filp vma w r w' H).
    + apply same_znodes_locks. exact (znodes_run_op op Hop w r w' H).
Qed.

End Untouched.

Lemma file_operations_issue_no_page_primitive_witness :
  exists r w',
    run_op (C := Sample.sim_consts) (OpMmap Sample.file0 Sample.vma0)
      (Sample.world0 Sample.sim0) = Done r w' /\
    count_ev is_any_page_ev (w_trace w') = 0%nat.
Proof.
  destruct (run_op (C := Sample.sim_consts) (OpMmap Sample.file0 Sample.vma0)
              (Sample.world0 Sample.sim0)) as [r w'|f] eqn:E;
    [|vm_compute in E; discriminate].
  destruct (file_operations_issue_no_page_primitive
              (OpMmap Sample.file0 Sample.vma0) _ _ _ eq_refl E)
    as (tr & Etr & Hc).
  exists r, w'. split; [reflexivity|].
  rewrite Etr. exact Hc.
Defined.

Lemma znodes_written_by_mmap_only_witness :
  exists r w' zp',
    run_op (C := Sample.sim_consts) (OpMmap Sample.file0 Sample.vma0)
      (Sample.world0 Sample.sim0) = Done r w' /\
    w_znodes w' !! 7%N = Some zp' /\ z_lock zp' = false.
Proof.
  destruct (run_op (C := Sample.sim_consts) (OpMmap Sample.file0 Sample.vma0)
              (Sample.world0 Sample.sim0)) as [r w'|f] eqn:E;
    [|vm_compute in E; discriminate].
  destruct (znodes_written_by_mmap_only _ _ _ _ E) as (_ & Hl).
  destruct (Hl 7%N {| z_is_mapped := 0; z_lock := false |} eq_refl)
    as (zp' & Ez & El).
  exists r, w', zp'. split; [reflexivity|]. split; [exact Ez | exact El].
Defined.

(** ** The batched populate *)
Section Readpages.
Context {S : Type} {Eng : Engine S} {Hst : Host S}.

Lemma fill_vector_overflow (ts : list N) :
  forall (pre : list (option N)) (k : nat),
    (k < length ts)%nat ->
    fill_vector ts (length pre) (pre ++ replicate k None) = None.
Proof.
  induction ts as [|t ts IH]; intros pre k Hk; simpl in *; [lia|].
  destruct k as [|k].
  - simpl. rewrite app_nil_r. rewrite decide_False by lia. reflexivity.
  - rewrite decide_True by (rewrite length_app; simpl; lia).
    replace (<[length pre := Some t]> (pre ++ replicate (Datatypes.S k) None))
      with ((pre ++ [Some t]) ++ replicate k None).
    + replace (length pre + 1)%nat with (length (pre ++ [Some t]))
        by (rewrite length_app; reflexivity).
      apply IH. lia.
    + rewrite <- app_assoc. simpl.
      rewrite insert_app_r_alt by lia.
      rewrite Nat.sub_diag. reflexivity.
Qed.

(** X7.  [pages_vector_from_list] returns [ERR_PTR(-ENOMEM)] when the
    allocation fails.  Otherwise, for a list of at most [nr_pages] pages,
    it returns an array of [nr_pages] slots that holds the pages in the
    opposite order: the page at position [i] of the list is in slot
    [length - 1 - i], and the slots past the length of the list are never
    written. *)
Theorem pages_vector_reverses_list (w : world S) (pages : list N)
    (nr_pages : nat) :
  let k := kmalloc (8 * Z.of_nat nr_pages) (w_ext w) in
  let w1 := World k.2 (w_pages w) (w_znodes w)
              (w_trace w ++ [EvKmalloc (8 * Z.of_nat nr_pages)]) in
  (k.1 = false ->
     pages_vector_from_list pages nr_pages w = Done (inl (- ENOMEM)) w1) /\
  (k.1 = true -> (length pages <= nr_pages)%nat ->
     exists pl,
       pages_vector_from_list pages nr_pages w = Done (inr pl) w1 /\
       length pl = nr_pages /\
       (forall i p, pages !! i = Some p ->
                    pl !! (length pages - 1 - i)%nat = Some (Some p)) /\
       (forall j, (length pages <= j < nr_pages)%nat -> pl !! j = Some None)).
Proof.
  intros k w1. subst w1 k.
  unfold pages_vector_from_list. zpl_unfold. simpl.
  destruct (kmalloc (8 * Z.of_nat nr_pages) (w_ext w)) as [ok s1]. simpl.
  split; intros ->; [reflexivity|]. intros Hlen. simpl.
  pose proof (fill_vector_ok (rev pages) [] nr_pages) as Hfill.
  rewrite length_rev in Hfill. specialize (Hfill Hlen). simpl in Hfill.
  rewrite Hfill. eexists. split; [reflexivity|].
  split; [|split].
  - rewrite length_app, length_fmap, length_rev, length_replicate. lia.
  - intros i p Hi. pose proof (lookup_lt_Some _ _ _ Hi) as Hlt.
    rewrite lookup_app_l by (rewrite length_fmap, length_rev; lia).
    rewrite list_lookup_fmap, rev_alt.
    change (rev_append pages []) with (reverse pages).
    rewrite reverse_lookup by lia.
    replace (length pages - Datatypes.S (length pages - 1 - i))%nat with i
      by lia.
    rewrite Hi. reflexivity.
  - intros j Hj.
    rewrite lookup_app_r by (rewrite length_fmap, length_rev; lia).
    rewrite length_fmap, length_rev.
    apply lookup_replicate_2. lia.
Qed.

(** X8.  The loop of [pages_vector_from_list] (lines 274-278) is bounded
    by the list and not by [nr_pages]: it stores one pointer for each page
    of the list.  With the array allocated, every store falls inside the
    array exactly when the list has at most [nr_pages] pages; for a longer
    list the loop stores past the end of the array of [nr_pages] slots.  (C
    gives such a store no meaning; what the call does after it is not
    stated.) *)
Theorem pages_vector_overflows_short_array (w : world S) (pages : list N)
    (nr_pages : nat) :
  (kmalloc (8 * Z.of_nat nr_pages) (w_ext w)).1 = true ->
  ((length pages <= nr_pages)%nat <->
     exists pl w1, pages_vector_from_list pages nr_pages w = Done (inr pl) w1)
  /\
  ((nr_pages < length pages)%nat ->
     fill_vector (rev pages) 0 (replicate nr_pages None) = None /\
     pages_vector_from_list pages nr_pages w = Fault HeapOverflow).
Proof.
  intros Hk.
  assert (Hover : (nr_pages < length pages)%nat ->
            fill_vector (rev pages) 0 (replicate nr_pages None) = None /\
            pages_vector_from_list pages nr_pages w = Fault HeapOverflow).
  { intros Hlen.
    pose proof (fill_vector_overflow (rev pages) [] nr_pages) as Hfill.
    rewrite length_rev in Hfill. specialize (Hfill Hlen). simpl in Hfill.
    split; [exact Hfill|].
    unfold pages_vector_from_list. zpl_unfold. simpl.
    destruct (kmalloc (8 * Z.of_nat nr_pages) (w_ext w)) as [ok s1].
    simpl in *. subst ok. simpl. rewrite Hfill. reflexivity. }
  split; [split|exact Hover].
  - intros Hlen.
    pose proof (fill_vector_ok (rev pages) [] nr_pages) as Hfill.
    rewrite length_rev in Hfill. specialize (Hfill Hlen). simpl in Hfill.
    unfold pages_vector_from_list. zpl_unfold. simpl.
    destruct (kmalloc (8 * Z.of_nat nr_pages) (w_ext w)) as [ok s1].
    simpl in *. subst ok. simpl. rewrite Hfill. eauto.
  - intros (pl & w1 & Hrun).
    destruct (le_lt_dec (length pages) nr_pages) as [Hle|Hlt]; [exact Hle|].
    destruct (Hover Hlt) as (_ & Hf). congruence.
Qed.

(** X9.  When the array cannot be allocated [zpl_readpages] returns
    [-ENOMEM] without calling the engine: the pages and the list are as
    they were, nothing is unlocked and there is nothing to free. *)
Theorem readpages_enomem (w : world S) (ip : N) (pages : list N)
    (nr_pages : nat) :
  let k := kmalloc (8 * Z.of_nat nr_pages) (w_ext w) in
  k.1 = false ->
  zpl_readpages ip pages nr_pages w
  = Done (- ENOMEM, pages)
      (World k.2 (w_pages w) (w_znodes w)
         (w_trace w ++ [EvKmalloc (8 * Z.of_nat nr_pages)])).
Proof.
  intros k Hk. subst k.
  unfold zpl_readpages, pages_vector_from_list. zpl_unfold. simpl.
  destruct (kmalloc (8 * Z.of_nat nr_pages) (w_ext w)) as [ok s1].
  simpl in *. subst ok. reflexivity.
Qed.

(** One turn of the loop of lines 302-310 on a page that is there. *)
Lemma readpages_step {A} (p : N) (pg : page) (l : list N)
    (K : list N -> M S A) (w : world S) :
  w_pages w !! p = Some pg ->
  (l' ← list_del p l;
   flush_dcache_page p ;; SetPageUptodate p ;; unlock_page p ;;
   page_cache_release p ;; K l') w
  = K (filter (fun q => q <> p) l)
      (World (w_ext w) (<[p := readpages_released pg]> (w_pages w))
         (w_znodes w) (w_trace w ++ readpages_page_events p)).
Proof.
  intros Hpg. unfold list_del. zpl_unfold. simpl. rewrite Hpg. simpl.
  repeat (rewrite lookup_insert_eq; simpl).
  rewrite !insert_insert_eq, <- !app_assoc. reflexivity.
Qed.

Lemma filter_not_in_cons (p : N) (ps l : list N) :
  filter (fun q => q ∉ ps) (filter (fun q => q <> p) l)
  = filter (fun q => q ∉ p :: ps) l.
Proof.
  induction l as [|x l IH]; [reflexivity|].
  rewrite (filter_cons (fun q => q <> p)), (filter_cons (fun q => q ∉ p :: ps)).
  destruct (decide (x <> p)) as [Hx|Hx];
    destruct (decide (x ∉ p :: ps)) as [Hy|Hy].
  - rewrite filter_cons, decide_True by set_solver. rewrite IH. reflexivity.
  - rewrite filter_cons, decide_False; [exact IH|].
    intros Hn. apply Hy. apply not_elem_of_cons. split; assumption.
  - exfalso. set_solver.
  - exact IH.
Qed.

Lemma filter_drop_all (ps l : list N) :
  (forall x, x ∈ l -> x ∈ ps) -> filter (fun q => q ∉ ps) l = [].
Proof.
  induction l as [|x l IH]; intros H; [reflexivity|].
  rewrite filter_cons, decide_False by (intros Hn; apply Hn, H; set_solver).
  apply IH. intros y Hy. apply H. set_solver.
Qed.

Lemma filter_keep_all (l : list N) : filter (fun q => q ∉ []) l = l.
Proof.
  induction l as [|x l IH]; [reflexivity|].
  rewrite filter_cons, decide_True by set_solver. rewrite IH. reflexivity.
Qed.

(** The whole loop, on distinct pages that are all there. *)
Lemma readpages_loop_run (ps : list N) :
  forall (l : list N) (w : world S),
    NoDup ps ->
    (forall p, p ∈ ps -> is_Some (w_pages w !! p)) ->
    exists w',
      readpages_loop ps l w = Done (filter (fun q => q ∉ ps) l) w' /\
      w_ext w' = w_ext w /\
      w_znodes w' = w_znodes w /\
      w_trace w' = w_trace w ++ concat (readpages_page_events <$> ps) /\
      (forall p pg, p ∈ ps -> w_pages w !! p = Some pg ->
                    w_pages w' !! p = Some (readpages_released pg)) /\
      (forall p, p ∉ ps -> w_pages w' !! p = w_pages w !! p).
Proof.
  induction ps as [|p ps IH]; intros l w Hnd Hall.
  - exists w. simpl. rewrite filter_keep_all, app_nil_r.
    repeat split; try reflexivity. intros p pg Hp. set_solver.
  - apply NoDup_cons in Hnd as [Hp Hnd].
    destruct (Hall p ltac:(set_solver)) as [pg Hpg].
    simpl. rewrite (readpages_step p pg l _ w Hpg).
    set (w1 := World (w_ext w) (<[p := readpages_released pg]> (w_pages w))
                 (w_znodes w) (w_trace w ++ readpages_page_events p)).
    destruct (IH (filter (fun q => q <> p) l) w1 Hnd)
      as (w' & Hrun & Hext & Hzn & Htr & Hin & Hout).
    { intros q Hq. subst w1. simpl.
      destruct (decide (p = q)) as [->|Hne].
      - rewrite lookup_insert_eq. eauto.
      - rewrite lookup_insert_ne by exact Hne. apply Hall. set_solver. }
    exists w'. rewrite Hrun, filter_not_in_cons.
    split; [reflexivity|]. split; [exact Hext|]. split; [exact Hzn|].
    split; [|split].
    + rewrite Htr. subst w1. simpl. rewrite <- !app_assoc. reflexivity.
    + intros q pgq Hq Hlook.
      destruct (decide (q = p)) as [->|Hne].
      * rewrite Hout by exact Hp. subst w1. simpl.
        rewrite lookup_insert_eq. congruence.
      * apply Hin;
          [apply elem_of_cons in Hq as [?|?]; [contradiction|assumption]|].
        subst w1. simpl.
        rewrite lookup_insert_ne by congruence. exact Hlook.
    + intros q Hq. rewrite Hout by set_solver. subst w1. simpl.
      apply lookup_insert_ne. set_solver.
Qed.

Lemma count_page_ev_app op pp (tr1 tr2 : list event) :
  count_page_ev op pp (tr1 ++ tr2)
  = (count_page_ev op pp tr1 + count_page_ev op pp tr2)%nat.
Proof.
  unfold count_page_ev. rewrite List.filter_app, length_app. reflexivity.
Qed.

(** In the trace of the loop each distinct page is unlocked once. *)
Lemma readpages_unlock_count (ps : list N) (p : N) :
  NoDup ps ->
  count_page_ev OpUnlockPage p (concat (readpages_page_events <$> ps))
  = if decide (p ∈ ps) then 1%nat else 0%nat.
Proof.
  induction ps as [|q ps IH]; intros Hnd.
  - destruct (decide (p ∈ [])) as [Hin|Hin]; [set_solver | reflexivity].
  - apply NoDup_cons in Hnd as [Hq Hnd].
    change (concat (readpages_page_events <$> q :: ps))
      with (readpages_page_events q ++ concat (readpages_page_events <$> ps)).
    rewrite count_page_ev_app, IH by exact Hnd.
    assert (Hone : count_page_ev OpUnlockPage p (readpages_page_events q)
                   = if decide (q = p) then 1%nat else 0%nat).
    { unfold readpages_page_events, count_page_ev. simpl.
      destruct (decide (q = p)) as [->|Hne].
      - rewrite bool_decide_eq_true_2 by reflexivity. reflexivity.
      - rewrite bool_decide_eq_false_2 by exact Hne. reflexivity. }
    rewrite Hone.
    destruct (decide (q = p)) as [->|Hne];
      destruct (decide (p ∈ ps)) as [Hin|Hin];
      destruct (decide (p ∈ _ :: ps)) as [Hin'|Hin'];
      try reflexivity; exfalso; rewrite elem_of_cons in Hin';
      intuition congruence.
Qed.

(** X10.  When the engine fills the batch, [zpl_readpages] returns [0] and
    leaves the list empty.  It walks distinct pages from the tail of the
    list; each one is taken off the list, flushed, marked uptodate,
    unlocked exactly once and released by one reference, with its error bit
    as it was, and no other page is touched; the array is freed last. *)
Theorem readpages_success (w : world S) (ip : N) (pages : list N)
    (nr_pages : nat) :
  NoDup pages ->
  (forall p, p ∈ pages -> is_Some (w_pages w !! p)) ->
  (length pages <= nr_pages)%nat ->
  (kmalloc (8 * Z.of_nat nr_pages) (w_ext w)).1 = true ->
  let s1 := (kmalloc (8 * Z.of_nat nr_pages) (w_ext w)).2 in
  let pl := (Some <$> rev pages) ++ replicate (nr_pages - length pages) None in
  let st := zfs_getpage ip pl (Z.of_nat nr_pages) s1 in
  neg_int st.1 = 0 ->
  exists (w' : world S) (tr : list event),
    zpl_readpages ip pages nr_pages w = Done (0, []) w' /\
    w_ext w' = st.2 /\
    w_znodes w' = w_znodes w /\
    tr = concat (readpages_page_events <$> rev pages) /\
    w_trace w' = w_trace w ++
      [EvKmalloc (8 * Z.of_nat nr_pages);
       EvZfsGetpage ip pl (Z.of_nat nr_pages)] ++ tr ++ [EvKfree] /\
    (forall p, p ∈ pages -> count_page_ev OpUnlockPage p tr = 1%nat) /\
    (forall p pg, p ∈ pages -> w_pages w !! p = Some pg ->
       w_pages w' !! p = Some (readpages_released pg) /\
       PG_locked (readpages_released pg) = false /\
       PG_uptodate (readpages_released pg) = true /\
       PG_error (readpages_released pg) = PG_error pg /\
       pg_count (readpages_released pg) = pg_count pg - 1) /\
    (forall p, p ∉ pages -> w_pages w' !! p = w_pages w !! p).
Proof.
  intros Hnd Hall Hlen Hk s1 pl st Hok. subst s1 pl st.
  destruct (kmalloc (8 * Z.of_nat nr_pages) (w_ext w)) as [ok s1] eqn:Ek.
  simpl in Hk. subst ok. simpl in *.
  destruct (zfs_getpage ip
              ((Some <$> rev pages) ++ replicate (nr_pages - length pages) None)
              (Z.of_nat nr_pages) s1) as [r s2] eqn:Eg.
  simpl in *.
  pose proof (fill_vector_ok (rev pages) [] nr_pages) as Hfill.
  rewrite length_rev in Hfill. specialize (Hfill Hlen). simpl in Hfill.
  set (w1 := World s2 (w_pages w) (w_znodes w)
               ((w_trace w ++ [EvKmalloc (8 * Z.of_nat nr_pages)]) ++
                [EvZfsGetpage ip
                   ((Some <$> rev pages) ++
                    replicate (nr_pages - length pages) None)
                   (Z.of_nat nr_pages)])).
  destruct (readpages_loop_run (rev pages) pages w1)
    as (w2 & Hrun & Hext & Hzn & Htr & Hin & Hout).
  { apply NoDup_ListNoDup, List.NoDup_rev, NoDup_ListNoDup. exact Hnd. }
  { intros p Hp. subst w1. simpl. apply Hall.
    apply list_elem_of_In, List.in_rev, list_elem_of_In. exact Hp. }
  rewrite filter_drop_all in Hrun
    by (intros x Hx; apply list_elem_of_In, List.in_rev;
        rewrite List.rev_involutive; apply list_elem_of_In; exact Hx).
  exists (World (w_ext w2) (w_pages w2) (w_znodes w2) (w_trace w2 ++ [EvKfree])),
    (concat (readpages_page_events <$> rev pages)).
  split.
  { apply nonzero_false in Hok.
    unfold zpl_readpages, pages_vector_from_list. zpl_unfold. simpl.
    rewrite Ek. simpl. rewrite Hfill. simpl. rewrite Eg. simpl.
    rewrite Hok. fold w1. rewrite Hrun.
    apply nonzero_false in Hok. rewrite Hok. reflexivity. }
  simpl. split; [rewrite Hext; reflexivity|].
  split; [rewrite Hzn; reflexivity|]. split; [reflexivity|].
  split; [rewrite Htr; subst w1; simpl; rewrite <- !app_assoc; reflexivity|].
  assert (Hrev : forall p, p ∈ pages <-> p ∈ rev pages).
  { intros p. rewrite !list_elem_of_In. apply List.in_rev. }
  split; [|split].
  - intros p Hp. rewrite readpages_unlock_count
      by (apply NoDup_ListNoDup, List.NoDup_rev, NoDup_ListNoDup; exact Hnd).
    rewrite decide_True by (apply Hrev; exact Hp). reflexivity.
  - intros p pg Hp Hlook. split; [|repeat split].
    apply Hin; [apply Hrev; exact Hp | exact Hlook].
  - intros p Hp. rewrite Hout by (rewrite <- Hrev; exact Hp). reflexivity.
Qed.

End Readpages.

Lemma pages_vector_reverses_list_witness :
  (exists pl w1,
     pages_vector_from_list [100%N; 101%N; 102%N] 4 (Sample.world0 Sample.sim0)
     = Done (inr pl) w1 /\
     pl !! 0%nat = Some (Some 102%N) /\ pl !! 3%nat = Some None) /\
  (exists w1,
     pages_vector_from_list [100%N; 101%N; 102%N] 4
       (Sample.world0 (sim_with_alloc false Sample.sim0))
     = Done (inl (-12)) w1).
Proof.
  split.
  - pose proof (pages_vector_reverses_list (Sample.world0 Sample.sim0)
                  [100%N; 101%N; 102%N] 4) as H.
    cbv zeta in H. destruct H as (_ & H).
    destruct (H eq_refl ltac:(simpl; lia)) as (pl & Hrun & _ & Hin & Hpad).
    exists pl. eexists. split; [exact Hrun|]. split.
    + exact (Hin 2%nat 102%N eq_refl).
    + apply Hpad. simpl. lia.
  - pose proof (pages_vector_reverses_list
                  (Sample.world0 (sim_with_alloc false Sample.sim0))
                  [100%N; 101%N; 102%N] 4) as H.
    cbv zeta in H. destruct H as (H & _).
    eexists. exact (H eq_refl).
Defined.

Lemma pages_vector_overflows_short_array_witness :
  (exists pl w1,
     pages_vector_from_list [100%N; 101%N; 102%N] 3 (Sample.world0 Sample.sim0)
     = Done (inr pl) w1) /\
  pages_vector_from_list [100%N; 101%N; 102%N] 2 (Sample.world0 Sample.sim0)
  = Fault HeapOverflow.
Proof.
  split.
  - destruct (pages_vector_overflows_short_array (Sample.world0 Sample.sim0)
                [100%N; 101%N; 102%N] 3) as (Hin & _); [reflexivity|].
    apply Hin. simpl. lia.
  - destruct (pages_vector_overflows_short_array (Sample.world0 Sample.sim0)
                [100%N; 101%N; 102%N] 2) as (_ & Hout); [reflexivity|].
    apply Hout. simpl. lia.
Defined.

Lemma readpages_enomem_witness :
  exists w',
    zpl_readpages 7 [100%N; 101%N; 102%N] 3
      (Sample.world0 (sim_with_alloc false Sample.sim0))
    = Done (-12, [100%N; 101%N; 102%N]) w' /\
    w_trace w' = [EvKmalloc 24].
Proof.
  eexists. split.
  - apply (readpages_enomem (Sample.world0 (sim_with_alloc false Sample.sim0))
             7 [100%N; 101%N; 102%N] 3). reflexivity.
  - reflexivity.
Defined.

Lemma readpages_success_witness :
  exists w' pg',
    zpl_readpages 7 [100%N; 101%N; 102%N] 3 (Sample.world0 Sample.sim0)
    = Done (0, []) w' /\
    w_pages w' !! 101%N = Some pg' /\
    PG_locked pg' = false /\ PG_uptodate pg' = true /\ pg_count pg' = 0.
Proof.
  destruct (readpages_success (Sample.world0 Sample.sim0) 7
              [100%N; 101%N; 102%N] 3)
    as (w' & tr & Hrun & _ & _ & _ & _ & _ & Hin & _).
  - refine (bool_decide_unpack (NoDup _) _). vm_compute. exact I.
  - intros p Hp. apply list_elem_of_In in Hp. simpl in Hp.
    destruct Hp as [<-|[<-|[<-|[]]]]; eexists; reflexivity.
  - simpl. lia.
  - reflexivity.
  - reflexivity.
  - destruct (Hin 101%N Sample.fresh_page) as (Hl & _).
    + apply list_elem_of_In. simpl. tauto.
    + reflexivity.
    + exists w', (readpages_released Sample.fresh_page).
      split; [exact Hrun|]. split; [exact Hl|]. repeat split.
Defined.

(** ** More on the single-page flush and the transfers *)
Section MoreIO.
Context {S : Type} {Eng : Engine S} {Hst : Host S}.

(** The contract of [zpl_putpage], for any [data] argument. *)
Lemma zpl_putpage_contract (w : world S) (pp wbc data : N) (pg : page) :
  w_pages w !! pp = Some pg ->
  single_page_contract w pp pg (EvZfsPutpage pp wbc data)
    (zfs_putpage pp wbc data (w_ext w)) (zpl_putpage pp wbc data w).
Proof.
  intros Hpg. unfold single_page_contract, zpl_putpage.
  destruct (zfs_putpage pp wbc data (w_ext w)) as [r s] eqn:E.
  destruct (mark_and_unlock (neg_int r) pp pg
              (World s (w_pages w) (w_znodes w)
                 (w_trace w ++ [EvZfsPutpage pp wbc data])) Hpg)
    as (pg' & tr & Hrun & Hcnt & Hlast & Hl & Hc & Hok & Hko).
  simpl in Hrun.
  exists (World s (<[pp := pg']> (w_pages w)) (w_znodes w)
            ((w_trace w ++ [EvZfsPutpage pp wbc data]) ++ tr)), pg', tr.
  split.
  { simpl. rewrite <- Hrun. zpl_unfold. simpl. rewrite E. reflexivity. }
  simpl. rewrite <- app_assoc. simpl. tauto.
Qed.

(** X11.  The [.writepage] entry point hands the page's own mapping to
    [zpl_putpage] and so keeps the single-page contract: whatever the
    engine answers, the page is marked by the status and unlocked exactly
    once, last. *)
Theorem writepage_unlocks_once (w : world S) (pp wbc : N) (pg : page) :
  w_pages w !! pp = Some pg ->
  single_page_contract w pp pg
    (EvZfsPutpage pp wbc (pg_mapping pg))
    (zfs_putpage pp wbc (pg_mapping pg) (w_ext w))
    (zpl_writepage pp wbc w).
Proof.
  intros Hpg.
  replace (zpl_writepage pp wbc w) with (zpl_putpage pp wbc (pg_mapping pg) w).
  - apply zpl_putpage_contract. exact Hpg.
  - unfold zpl_writepage, page_get. unfold mbind, M_bind.
    rewrite Hpg. reflexivity.
Qed.

(** The bounds of the value lines 130-133 and 173-176 return. *)
Lemma transfer_result_bounds (len r resid : Z) (w' : world S) :
  0 <= r <= INT_MAX -> 0 <= resid <= len -> len <= LLONG_MAX ->
  transfer_bounds len r
    (Done (if neg_int r <? 0 then neg_int r else to_s64 (len - resid)) w').
Proof.
  intros Hr Hresid Hlen. unfold transfer_bounds. eexists _, _.
  split; [reflexivity|].
  destruct (Z.eq_dec r 0) as [->|Hne].
  - change (neg_int 0 <? 0) with false. cbv iota.
    rewrite to_s64_id by (unfold LLONG_MIN, LLONG_MAX in *; lia).
    unfold INT_MAX. lia.
  - destruct (neg_int_pos r ltac:(lia)) as [E Hneg].
    rewrite (proj2 (Z.ltb_lt _ _) Hneg), E. lia.
Qed.

(** X12.  When the engine keeps to its interface, [zpl_read_common] and
    [zpl_write_common] return either the negated errno or a count between
    [0] and the requested length: never more bytes than were asked for,
    and never a count when the engine reported an error. *)
Theorem transfer_never_exceeds_request (w : world S) (ip buf : N)
    (len pos : Z) (segment : uio_seg_t) (flags : Z) (cr : N) :
  let uio := mk_uio buf len pos segment in
  let rd := zfs_read ip uio flags cr (w_ext w) in
  let wr := zfs_write ip uio flags cr (w_ext w) in
  len <= LLONG_MAX ->
  (0 <= rd.1.1 <= INT_MAX -> 0 <= uio_resid rd.1.2 <= len ->
     transfer_bounds len rd.1.1
       (zpl_read_common ip buf len pos segment flags cr w)) /\
  (0 <= wr.1.1 <= INT_MAX -> 0 <= uio_resid wr.1.2 <= len ->
     transfer_bounds len wr.1.1
       (zpl_write_common ip buf len pos segment flags cr w)).
Proof.
  intros uio rd wr Hlen. split; intros Hr Hresid.
  - rewrite zpl_read_common_eq. cbv zeta.
    apply transfer_result_bounds; assumption.
  - rewrite zpl_write_common_eq. cbv zeta.
    apply transfer_result_bounds; assumption.
Qed.

(** X13.  The transfers test [error < 0], not [error != 0]: a negative
    engine status, which the other wrappers assert against, is taken for
    success here and the byte count is returned. *)
Theorem transfer_takes_negative_status_for_success (w : world S) (ip buf : N)
    (len pos : Z) (segment : uio_seg_t) (flags : Z) (cr : N) :
  let uio := mk_uio buf len pos segment in
  let rd := zfs_read ip uio flags cr (w_ext w) in
  let wr := zfs_write ip uio flags cr (w_ext w) in
  (- INT_MAX <= rd.1.1 < 0 ->
     zpl_read_common ip buf len pos segment flags cr w
     = Done (to_s64 (len - uio_resid rd.1.2))
         (World rd.2 (w_pages w) (w_znodes w)
            (w_trace w ++ [EvZfsRead ip uio flags]))) /\
  (- INT_MAX <= wr.1.1 < 0 ->
     zpl_write_common ip buf len pos segment flags cr w
     = Done (to_s64 (len - uio_resid wr.1.2))
         (World wr.2 (w_pages w) (w_znodes w)
            (w_trace w ++ [EvZfsWrite ip uio flags]))).
Proof.
  intros uio rd wr. split; intros Hr.
  - rewrite zpl_read_common_eq. cbv zeta. fold uio. fold rd.
    rewrite neg_int_opp by (unfold INT_MIN, INT_MAX in *; lia).
    rewrite (proj2 (Z.ltb_ge _ _)) by lia. reflexivity.
  - rewrite zpl_write_common_eq. cbv zeta. fold uio. fold wr.
    rewrite neg_int_opp by (unfold INT_MIN, INT_MAX in *; lia).
    rewrite (proj2 (Z.ltb_ge _ _)) by lia. reflexivity.
Qed.

(** The position after lines 147-151 and 190-194, from the value the
    transfer returned. *)
Lemma position_tail_bounds (ppos len r resid : Z) (w' : world S) :
  0 <= r <= INT_MAX -> 0 <= resid <= len ->
  0 <= ppos -> ppos + len <= LLONG_MAX ->
  let n := if neg_int r <? 0 then neg_int r else to_s64 (len - resid) in
  position_bounds ppos len r resid
    (Done (n, if n <? 0 then ppos else to_s64 (ppos + n)) w').
Proof.
  intros Hr Hresid Hlo Hhi n. subst n. unfold position_bounds.
  destruct (Z.eq_dec r 0) as [->|Hne].
  - change (neg_int 0 <? 0) with false. cbv iota.
    rewrite (to_s64_id (len - resid))
      by (unfold LLONG_MIN, LLONG_MAX in *; lia).
    rewrite (proj2 (Z.ltb_ge (len - resid) 0)) by lia.
    rewrite to_s64_id by (unfold LLONG_MIN, LLONG_MAX in *; lia).
    eexists _, _, _. split; [reflexivity|].
    split; [lia|]. split; [lia|]. intros _. split; reflexivity.
  - destruct (neg_int_pos r ltac:(lia)) as [E Hneg].
    rewrite (proj2 (Z.ltb_lt _ _) Hneg). rewrite (proj2 (Z.ltb_lt _ _) Hneg).
    eexists _, _, _. split; [reflexivity|].
    split; [lia|]. split; [|lia]. intros _. split; [exact E | reflexivity].
Qed.

(** [zpl_read] and [zpl_write] always return: their outcome from the
    engine's answer. *)
Lemma zpl_read_eq (w : world S) (filp : file) (buf : N) (len ppos : Z) :
  zpl_read filp buf len ppos w =
    let cr := CRED (w_ext w) in
    let uio := mk_uio buf len ppos UIO_USERSPACE in
    let rd := zfs_read (f_host filp) uio (to_int (f_flags filp)) cr (w_ext w) in
    let n := if neg_int rd.1.1 <? 0 then neg_int rd.1.1
             else to_s64 (len - uio_resid rd.1.2) in
    Done (n, if n <? 0 then ppos else to_s64 (ppos + n))
      (World rd.2 (w_pages w) (w_znodes w)
         (w_trace w ++ [EvCrhold cr;
                        EvZfsRead (f_host filp) uio (to_int (f_flags filp));
                        EvCrfree cr])).
Proof.
  unfold zpl_read. unfold mbind at 1 2 3, M_bind.
  unfold query, emit at 1. simpl. rewrite zpl_read_common_eq. cbv zeta.
  simpl. unfold emit, mbind, M_bind, mret, M_ret. simpl.
  rewrite <- !app_assoc. simpl.
  match goal with |- (if ?c then _ else _) _ = _ => destruct c end;
    reflexivity.
Qed.

Lemma zpl_write_eq (w : world S) (filp : file) (buf : N) (len ppos : Z) :
  zpl_write filp buf len ppos w =
    let cr := CRED (w_ext w) in
    let uio := mk_uio buf len ppos UIO_USERSPACE in
    let wr := zfs_write (f_host filp) uio (to_int (f_flags filp)) cr (w_ext w) in
    let n := if neg_int wr.1.1 <? 0 then neg_int wr.1.1
             else to_s64 (len - uio_resid wr.1.2) in
    Done (n, if n <? 0 then ppos else to_s64 (ppos + n))
      (World wr.2 (w_pages w) (w_znodes w)
         (w_trace w ++ [EvCrhold cr;
                        EvZfsWrite (f_host filp) uio (to_int (f_flags filp));
                        EvCrfree cr])).
Proof.
  unfold zpl_write. unfold mbind at 1 2 3, M_bind.
  unfold query, emit at 1. simpl. rewrite zpl_write_common_eq. cbv zeta.
  simpl. unfold emit, mbind, M_bind, mret, M_ret. simpl.
  rewrite <- !app_assoc. simpl.
  match goal with |- (if ?c then _ else _) _ = _ => destruct c end;
    reflexivity.
Qed.

(** X14.  When the engine keeps to its interface and the request, from a
    position that is not negative, fits the offset type, [zpl_read] and
    [zpl_write] never move the position backwards nor past the end of the
    request: the new position lies between [ppos] and [ppos + len], is
    [ppos] itself on an error and [ppos] plus the count otherwise. *)
Theorem position_within_request (w : world S) (filp : file) (buf : N)
    (len ppos : Z) :
  let cr := CRED (w_ext w) in
  let uio := mk_uio buf len ppos UIO_USERSPACE in
  let rd := zfs_read (f_host filp) uio (to_int (f_flags filp)) cr (w_ext w) in
  let wr := zfs_write (f_host filp) uio (to_int (f_flags filp)) cr (w_ext w) in
  0 <= ppos -> ppos + len <= LLONG_MAX ->
  (0 <= rd.1.1 <= INT_MAX -> 0 <= uio_resid rd.1.2 <= len ->
     position_bounds ppos len rd.1.1 (uio_resid rd.1.2)
       (zpl_read filp buf len ppos w)) /\
  (0 <= wr.1.1 <= INT_MAX -> 0 <= uio_resid wr.1.2 <= len ->
     position_bounds ppos len wr.1.1 (uio_resid wr.1.2)
       (zpl_write filp buf len ppos w)).
Proof.
  intros cr uio rd wr Hlo Hhi. split; intros Hr Hresid.
  - rewrite zpl_read_eq. cbv zeta.
    apply position_tail_bounds; assumption.
  - rewrite zpl_write_eq. cbv zeta.
    apply position_tail_bounds; assumption.
Qed.

(** X20.  [zpl_readpage] asserts that its caller holds the page locked:
    on a page that is not locked a build with assertions panics before
    the engine is asked; a build without them goes on, and marks the page
    and ends with its one [unlock_page] all the same. *)
Theorem readpage_asserts_locked_page (w : world S) (pp : N) (pg : page) :
  w_pages w !! pp = Some pg ->
  PG_locked pg = false ->
  (NDEBUG = false -> zpl_readpage pp w = Fault AssertFailed) /\
  (NDEBUG = true ->
   single_page_contract w pp pg
     (EvZfsGetpage (pg_host pg) [Some pp] 1)
     (zfs_getpage (pg_host pg) [Some pp] 1 (w_ext w))
     (zpl_readpage pp w)).
Proof.
  intros Hpg Hl. split; intros Hnd.
  - unfold zpl_readpage. zpl_unfold. simpl.
    rewrite Hpg. simpl. rewrite Hl, Hnd. reflexivity.
  - unfold single_page_contract, zpl_readpage.
    destruct (zfs_getpage (pg_host pg) [Some pp] 1 (w_ext w)) as [r s] eqn:E.
    destruct (mark_and_unlock (neg_int r) pp pg
                (World s (w_pages w) (w_znodes w)
                   (w_trace w ++ [EvZfsGetpage (pg_host pg) [Some pp] 1])) Hpg)
      as (pg' & tr & Hrun & Hcnt & Hlast & Hl' & Hc & Hok & Hko).
    simpl in Hrun.
    exists (World s (<[pp := pg']> (w_pages w)) (w_znodes w)
              ((w_trace w ++ [EvZfsGetpage (pg_host pg) [Some pp] 1]) ++ tr)),
      pg', tr.
    split.
    { simpl. rewrite <- Hrun. zpl_unfold. simpl. rewrite Hpg. simpl.
      rewrite Hnd. simpl. rewrite Hpg. simpl. rewrite E. reflexivity. }
    simpl. rewrite <- app_assoc. simpl. tauto.
Qed.

End MoreIO.

Lemma writepage_unlocks_once_witness :
  single_page_contract (Sample.world0 (Sample.with_errno 5 Sample.sim0)) 100
    Sample.fresh_page (EvZfsPutpage 100 0x3000 70)
    (5, Sample.with_errno 5 Sample.sim0)
    (zpl_writepage 100 0x3000 (Sample.world0 (Sample.with_errno 5 Sample.sim0))).
Proof.
  exact (writepage_unlocks_once
           (Sample.world0 (Sample.with_errno 5 Sample.sim0)) 100 0x3000
           Sample.fresh_page eq_refl).
Defined.

Lemma transfer_never_exceeds_request_witness :
  transfer_bounds 4096 0
    (zpl_read_common 7 0x1000 4096 4000 UIO_USERSPACE 0 1
       (Sample.world0 Sample.sim0)) /\
  transfer_bounds 4096 28
    (zpl_write_common 7 0x1000 4096 4000 UIO_USERSPACE 0 1
       (Sample.world0 (Sample.with_errno 28 Sample.sim0))).
Proof.
  split.
  - pose proof (transfer_never_exceeds_request (Sample.world0 Sample.sim0)
                  7 0x1000 4096 4000 UIO_USERSPACE 0 1) as H.
    cbv zeta in H.
    refine (proj1 (H _) _ _); vm_compute; intuition discriminate.
  - pose proof (transfer_never_exceeds_request
                  (Sample.world0 (Sample.with_errno 28 Sample.sim0))
                  7 0x1000 4096 4000 UIO_USERSPACE 0 1) as H.
    cbv zeta in H.
    refine (proj2 (H _) _ _); vm_compute; intuition discriminate.
Defined.

Lemma transfer_takes_negative_status_for_success_witness :
  zpl_read_common 7 0x1000 4096 4000 UIO_USERSPACE 0 1
    (Sample.world0 (Sample.with_errno (-5) Sample.sim0))
  = Done 0
      (World (Sample.with_errno (-5) Sample.sim0)
         (w_pages (Sample.world0 Sample.sim0))
         (w_znodes (Sample.world0 Sample.sim0))
         [EvZfsRead 7 (mk_uio 0x1000 4096 4000 UIO_USERSPACE) 0]).
Proof.
  pose proof (transfer_takes_negative_status_for_success
                (Sample.world0 (Sample.with_errno (-5) Sample.sim0))
                7 0x1000 4096 4000 UIO_USERSPACE 0 1) as H.
  cbv zeta in H. destruct H as (H & _).
  apply H. vm_compute. intuition discriminate.
Defined.

Lemma position_within_request_witness :
  position_bounds 4000 4096 0 3096
    (zpl_read Sample.file0 0x1000 4096 4000 (Sample.world0 Sample.sim0)) /\
  position_bounds 4000 4096 28 4096
    (zpl_write Sample.file0 0x1000 4096 4000
       (Sample.world0 (Sample.with_errno 28 Sample.sim0))).
Proof.
  split.
  - pose proof (position_within_request (Sample.world0 Sample.sim0)
                  Sample.file0 0x1000 4096 4000) as H.
    cbv zeta in H.
    refine (proj1 (H _ _) _ _); vm_compute; intuition discriminate.
  - pose proof (position_within_request
                  (Sample.world0 (Sample.with_errno 28 Sample.sim0))
                  Sample.file0 0x1000 4096 4000) as H.
    cbv zeta in H.
    refine (proj2 (H _ _) _ _); vm_compute; intuition discriminate.
Defined.

(** ** More on the flag translator *)
Section MoreFlags.
Context {C : ZfsConsts}.

(** The translation as the union of what each test contributes. *)
Lemma ioctl_flags_union (f : Z) :
  zpl_get_ioctl_flags f =
  Z.land
    (Z.lor (pick (nonzero (Z.land f ZFS_IMMUTABLE)) FS_IMMUTABLE_FL)
    (Z.lor (pick (nonzero (Z.land f ZFS_APPENDONLY)) FS_APPEND_FL)
    (Z.lor (pick (nonzero (Z.land f ZFS_NODUMP)) FS_NODUMP_FL)
    (Z.lor (pick (nonzero (Z.land f ZFS_DIRSYNC)) FS_DIRSYNC_FL)
    (Z.lor (pick (nonzero (Z.land f ZFS_SYNC)) FS_SYNC_FL)
           (pick (nonzero (Z.land f ZFS_NOATIME)) FS_NOATIME_FL))))))
    FS_FL_USER_VISIBLE.
Proof.
  unfold zpl_get_ioctl_flags.
  destruct (nonzero (Z.land f ZFS_IMMUTABLE));
  destruct (nonzero (Z.land f ZFS_APPENDONLY));
  destruct (nonzero (Z.land f ZFS_NODUMP));
  destruct (nonzero (Z.land f ZFS_DIRSYNC));
  destruct (nonzero (Z.land f ZFS_SYNC));
  destruct (nonzero (Z.land f ZFS_NOATIME));
  reflexivity.
Qed.

Lemma testbit_pick (b : bool) (bit n : Z) :
  Z.testbit (pick b bit) n = b && Z.testbit bit n.
Proof. destruct b; [reflexivity | apply Z.bits_0]. Qed.

(** A test on a union is the disjunction of the tests. *)
Lemma nonzero_land_lor (f g x : Z) :
  nonzero (Z.land (Z.lor f g) x)
  = nonzero (Z.land f x) || nonzero (Z.land g x).
Proof.
  rewrite Z.land_lor_distr_l. unfold nonzero.
  destruct (Z.eqb_spec (Z.lor (Z.land f x) (Z.land g x)) 0) as [E|E];
    destruct (Z.eqb_spec (Z.land f x) 0) as [Ef|Ef];
    destruct (Z.eqb_spec (Z.land g x) 0) as [Eg|Eg];
    try reflexivity; exfalso.
  - apply Z.lor_eq_0_iff in E. tauto.
  - apply Z.lor_eq_0_iff in E. tauto.
  - apply Z.lor_eq_0_iff in E. tauto.
  - apply E. rewrite Ef, Eg. reflexivity.
Qed.

(** X15.  Whatever the internal word, each of the six external flags is
    set in the result of [zpl_get_ioctl_flags] exactly when the test of its
    internal flag succeeds, and no other bit is ever set: the result fits
    an [unsigned int] and lies within the six bits that
    [zpl_ioctl_setflags] accepts. *)
Theorem ioctl_flags_mirror_the_six_tests (f : Z) :
  let e := zpl_get_ioctl_flags f in
  nonzero (Z.land e FS_IMMUTABLE_FL) = nonzero (Z.land f ZFS_IMMUTABLE) /\
  nonzero (Z.land e FS_APPEND_FL) = nonzero (Z.land f ZFS_APPENDONLY) /\
  nonzero (Z.land e FS_NODUMP_FL) = nonzero (Z.land f ZFS_NODUMP) /\
  nonzero (Z.land e FS_DIRSYNC_FL) = nonzero (Z.land f ZFS_DIRSYNC) /\
  nonzero (Z.land e FS_SYNC_FL) = nonzero (Z.land f ZFS_SYNC) /\
  nonzero (Z.land e FS_NOATIME_FL) = nonzero (Z.land f ZFS_NOATIME) /\
  Z.land e (Z.lnot ZPL_SETFLAGS_SUPPORTED) = 0 /\
  0 <= e <= ZPL_SETFLAGS_SUPPORTED /\
  to_uint e = e.
Proof.
  intros e. subst e. rewrite ioctl_flags_union.
  destruct (nonzero (Z.land f ZFS_IMMUTABLE));
  destruct (nonzero (Z.land f ZFS_APPENDONLY));
  destruct (nonzero (Z.land f ZFS_NODUMP));
  destruct (nonzero (Z.land f ZFS_DIRSYNC));
  destruct (nonzero (Z.land f ZFS_SYNC));
  destruct (nonzero (Z.land f ZFS_NOATIME));
  vm_compute; intuition discriminate.
Qed.

Lemma zpl_get_ioctl_flags_lor (f g : Z) :
  zpl_get_ioctl_flags (Z.lor f g)
  = Z.lor (zpl_get_ioctl_flags f) (zpl_get_ioctl_flags g).
Proof.
  rewrite !ioctl_flags_union, !nonzero_land_lor.
  apply Z.bits_inj'. intros n Hn.
  rewrite ?Z.land_spec, ?Z.lor_spec, ?Z.land_spec, ?Z.lor_spec, ?testbit_pick.
  btauto.
Qed.

(** X16.  The translation distributes over the union of flag words: the
    flags of [f | g] are the flags of [f] together with the flags of [g],
    so that each flag is translated on its own, whatever else is set; and
    the empty word translates to the empty word. *)
Theorem ioctl_flags_of_union (f g : Z) :
  zpl_get_ioctl_flags (Z.lor f g)
  = Z.lor (zpl_get_ioctl_flags f) (zpl_get_ioctl_flags g) /\
  zpl_get_ioctl_flags 0 = 0.
Proof.
  split; [apply zpl_get_ioctl_flags_lor|].
  rewrite ioctl_flags_union, !Z.land_0_l. reflexivity.
Qed.

(** X17.  Internal bits outside the six recognised ones never show: adding
    such bits to a flag word does not change its translation. *)
Theorem ioctl_flags_ignore_other_bits (f g : Z) :
  Z.land g ZFS_RECOGNIZED = 0 ->
  zpl_get_ioctl_flags (Z.lor f g) = zpl_get_ioctl_flags f.
Proof.
  intros Hg. rewrite zpl_get_ioctl_flags_lor.
  assert (Hz : zpl_get_ioctl_flags g = 0).
  { unfold ZFS_RECOGNIZED in Hg.
    rewrite !Z.land_lor_distr_r in Hg.
    repeat (apply Z.lor_eq_0_iff in Hg;
            let H := fresh "H" in destruct Hg as [H Hg]).
    rewrite ioctl_flags_union.
    unfold nonzero. rewrite H, H0, H1, H2, H3, Hg. reflexivity. }
  rewrite Hz. apply Z.lor_0_r.
Qed.

End MoreFlags.

Lemma ioctl_flags_ignore_other_bits_witness :
  zpl_get_ioctl_flags (C := Sample.sim_consts)
    (Z.lor 0x0000001000000000 0x0000000100000000)
  = zpl_get_ioctl_flags (C := Sample.sim_consts) 0x0000001000000000.
Proof.
  apply (ioctl_flags_ignore_other_bits (C := Sample.sim_consts)
           0x0000001000000000 0x0000000100000000).
  reflexivity.
Defined.

(** ** More on the flag ioctls *)
Section MoreControl.
Context {S : Type} {Eng : Engine S} {Hst : Host S} {C : ZfsConsts}.

Lemma ioctl_flags_fit_uint (f : Z) :
  to_uint (zpl_get_ioctl_flags f) = zpl_get_ioctl_flags f.
Proof.
  rewrite ioctl_flags_union.
  destruct (nonzero (Z.land f ZFS_IMMUTABLE));
  destruct (nonzero (Z.land f ZFS_APPENDONLY));
  destruct (nonzero (Z.land f ZFS_NODUMP));
  destruct (nonzero (Z.land f ZFS_DIRSYNC));
  destruct (nonzero (Z.land f ZFS_SYNC));
  destruct (nonzero (Z.land f ZFS_NOATIME));
  reflexivity.
Qed.

(** X18.  When [copy_from_user] cannot read the requested word,
    [zpl_ioctl_setflags] returns what it returned, the positive number of
    bytes left, before any test: the caller's permission is not looked at
    and the engine is not called. *)
Theorem setflags_copy_failure_positive (w : world S) (filp : file) (arg : N) :
  let ans := copy_from_user arg 4 (w_ext w) in
  0 < ans.1.1 <= 4 ->
  zpl_ioctl_setflags filp arg w
  = Done ans.1.1
      (World ans.2 (w_pages w) (w_znodes w)
         (w_trace w ++ [EvCopyFromUser arg 4])) /\
  0 < ans.1.1.
Proof.
  intros ans Hn. rewrite zpl_ioctl_setflags_eq. cbv zeta. fold ans.
  rewrite to_int_id by (unfold INT_MIN, INT_MAX; lia).
  rewrite (proj2 (nonzero_true ans.1.1)) by lia.
  split; [reflexivity | lia].
Qed.

(** X19.  A word that [zpl_get_ioctl_flags] produced is never refused by
    [zpl_ioctl_setflags]: sent back by the owner, whatever internal flags
    it came from, it passes the modifiable mask and the support test and
    reaches [zfs_setattr]. *)
Theorem setflags_accepts_translated_word (w : world S) (filp : file)
    (arg : N) (f : Z) :
  let ans := copy_from_user arg 4 (w_ext w) in
  to_int ans.1.1 = 0 ->
  ans.1.2 = zpl_get_ioctl_flags f ->
  is_owner_or_cap (f_inode filp) ans.2 = true ->
  zpl_ioctl_setflags filp arg w
  = Done (neg_int (zfs_setattr ans.2).1)
      (World (zfs_setattr ans.2).2 (w_pages w) (w_znodes w)
         (w_trace w ++ [EvCopyFromUser arg 4; EvZfsSetattr])).
Proof.
  intros ans Hread Hword Howner.
  rewrite zpl_ioctl_setflags_eq. cbv zeta. fold ans.
  apply nonzero_false in Hread.
  rewrite Hread, Hword, ioctl_flags_fit_uint, ext_modifiable, ext_supported,
    Howner.
  reflexivity.
Qed.

End MoreControl.

Lemma setflags_copy_failure_positive_witness :
  zpl_ioctl_setflags Sample.file0 0x2000
    (Sample.world0 (Sample.with_left 4 (Sample.with_request false 1 Sample.sim0)))
  = Done 4
      (World (Sample.with_left 4 (Sample.with_request false 1 Sample.sim0))
         (w_pages (Sample.world0 Sample.sim0))
         (w_znodes (Sample.world0 Sample.sim0))
         [EvCopyFromUser 0x2000 4]).
Proof.
  pose proof (setflags_copy_failure_positive
                (Sample.world0
                   (Sample.with_left 4 (Sample.with_request false 1 Sample.sim0)))
                Sample.file0 0x2000) as H.
  cbv zeta in H. refine (proj1 (H _)). vm_compute. intuition discriminate.
Defined.

Lemma setflags_accepts_translated_word_witness :
  zpl_ioctl_setflags Sample.file0 0x2000
    (Sample.world0 (Sample.with_request true 0x90 Sample.sim0))
  = Done 0
      (World (Sample.with_request true 0x90 Sample.sim0)
         (w_pages (Sample.world0 Sample.sim0))
         (w_znodes (Sample.world0 Sample.sim0))
         [EvCopyFromUser 0x2000 4; EvZfsSetattr]).
Proof.
  pose proof (setflags_accepts_translated_word (C := Sample.sim_consts)
                (Sample.world0 (Sample.with_request true 0x90 Sample.sim0))
                Sample.file0 0x2000 0x0004001000000000) as H.
  cbv zeta in H. exact (H eq_refl eq_refl eq_refl).
Defined.

Lemma open_reaches_generic_open_only_on_success_witness :
  zpl_open 7 Sample.file0 (Sample.world0 (Sample.with_errno 13 Sample.sim0))
  = Done (-13)
      (World (Sample.with_errno 13 Sample.sim0)
         (w_pages (Sample.world0 Sample.sim0))
         (w_znodes (Sample.world0 Sample.sim0))
         [EvCrhold 1; EvZfsOpen 7 1 0; EvCrfree 1])
  /\
  zpl_open 7 Sample.file0 (Sample.world0 Sample.sim0)
  = Done 0
      (World Sample.sim0
         (w_pages (Sample.world0 Sample.sim0))
         (w_znodes (Sample.world0 Sample.sim0))
         [EvCrhold 1; EvZfsOpen 7 1 0; EvCrfree 1; EvGenericFileOpen 7])
  /\
  zpl_open 7 Sample.file0 (Sample.world0 (Sample.with_errno (-13) Sample.sim0))
  = Fault AssertFailed.
Proof.
  split; [|split].
  - pose proof (open_reaches_generic_open_only_on_success
                  (Sample.world0 (Sample.with_errno 13 Sample.sim0))
                  7 Sample.file0) as H.
    cbv zeta in H. destruct H as (H & _).
    apply H. vm_compute. intuition discriminate.
  - pose proof (open_reaches_generic_open_only_on_success
                  (Sample.world0 Sample.sim0) 7 Sample.file0) as H.
    cbv zeta in H. destruct H as (_ & H & _).
    exact (H eq_refl).
  - pose proof (open_reaches_generic_open_only_on_success
                  (Sample.world0 (Sample.with_errno (-13) Sample.sim0))
                  7 Sample.file0) as H.
    cbv zeta in H. destruct H as (_ & _ & H).
    apply H. vm_compute. intuition discriminate.
Defined.

Lemma status_wrappers_negate_witness :
  zpl_release 7 Sample.file0 (Sample.world0 (Sample.with_errno 5 Sample.sim0))
  = Done (-5)
      (World (Sample.with_errno 5 Sample.sim0)
         (w_pages (Sample.world0 Sample.sim0))
         (w_znodes (Sample.world0 Sample.sim0))
         [EvCrhold 1; EvZfsClose 7 0; EvCrfree 1])
  /\
  zpl_readdir Sample.file0 0x4000 0x5000 3
    (Sample.world0 (Sample.with_errno (-5) Sample.sim0))
  = Fault AssertFailed.
Proof.
  split.
  - pose proof (status_wrappers_negate
                  (Sample.world0 (Sample.with_errno 5 Sample.sim0))
                  7 0x4000 0x5000 Sample.file0 0 3) as H.
    cbv zeta in H. destruct H as ((H & _) & _).
    apply H. vm_compute. intuition discriminate.
  - pose proof (status_wrappers_negate
                  (Sample.world0 (Sample.with_errno (-5) Sample.sim0))
                  7 0x4000 0x5000 Sample.file0 0 3) as H.
    cbv zeta in H. destruct H as (_ & _ & (_ & H)).
    apply H. vm_compute. intuition discriminate.
Defined.

Lemma readpage_asserts_locked_page_witness :
  zpl_readpage 100
    (World Sample.sim0
       (<[100%N := set_PG_locked false Sample.fresh_page]> ∅) ∅ [])
  = Fault AssertFailed.
Proof.
  apply (readpage_asserts_locked_page
           (World Sample.sim0
              (<[100%N := set_PG_locked false Sample.fresh_page]> ∅) ∅ [])
           100 (set_PG_locked false Sample.fresh_page));
    reflexivity.
Defined.
